(** * Cart synchronisation core of the storefront client

    A shallow embedding of the cart context provider (the [CartProvider]
    component with its [refreshCart], [getOrCreateCart], [addItem],
    [removeItem] and [updateItemQuantity] callbacks), of the remote cart
    gateway functions of [graphql/cart.js] and of the legacy hook
    [useShopifyCart] of [hooks/use-cart.ts].

    Asynchronous functions are programs over three kinds of effect: reads
    and writes of the client store (React state cells, [localStorage], the
    console) and awaited calls of [shopifyFetch].  A program is run either
    to completion against a remote service, or one synchronous stretch at a
    time, which is how the JavaScript event loop interleaves several calls
    in flight. *)

From stdpp Require Import base option list strings gmap pretty.
From Stdlib Require Import ZArith Ascii.

Local Open Scope string_scope.
Local Open Scope Z_scope.
Local Open Scope list_scope.

(** ** Data model *)

(** [{ amount: string; currencyCode: string }] *)
Record Money := mkMoney {
  amount : string;
  currencyCode : string
}.

(** The [merchandise] object of a cart line (the fields the core reads). *)
Record Merchandise := mkMerchandise {
  merchandise_id : string;
  merchandise_title : string;
  merchandise_price : Money
}.

(** [interface CartLine]: the line identifier is distinct from the
    identifier of the variant it holds. Quantities are GraphQL [Int]s. *)
Record CartLine := mkCartLine {
  line_id : string;
  line_quantity : Z;
  line_merchandise : Merchandise
}.

(** The [cost] object of a cart. *)
Record CartCost := mkCartCost {
  cost_totalAmount : Money;
  cost_subtotalAmount : option Money;
  cost_totalTaxAmount : option Money
}.

(** [interface ShopifyCart]; [cart_lines] is the node list of
    [lines.edges], in order. *)
Record ShopifyCart := mkShopifyCart {
  cart_id : string;
  cart_lines : list CartLine;
  cart_cost : CartCost;
  cart_checkoutUrl : string
}.

(** A thrown JavaScript value: an [Error] instance with its message, or
    any other value (the handlers test [err instanceof Error]). *)
Inductive JsValue : Type :=
| JsError (message : string)
| JsOther (repr : string).

(** ** Transport: what [shopifyFetch] is asked and what it answers *)

Record CartLineInput := mkCartLineInput {
  merchandiseId : string;
  input_quantity : Z
}.

Record CartLineUpdateInput := mkCartLineUpdateInput {
  update_id : string;
  update_quantity : Z
}.

(** The five documents of [graphql/cart.js] with their variables. *)
Inductive Request : Type :=
| CREATE_CART_MUTATION (lines : option (list CartLineInput))
| ADD_CART_LINES_MUTATION (cartId : string) (lines : list CartLineInput)
| UPDATE_CART_LINES_MUTATION (cartId : string)
    (lines : list CartLineUpdateInput)
| REMOVE_CART_LINES_MUTATION (cartId : string) (lineIds : list string)
| GET_CART_QUERY (cartId : string).

Record UserError := mkUserError {
  userError_message : string
}.

(** The payload of a response: [response.data.<operation>.cart] and
    [response.data.<operation>.userErrors] for a mutation,
    [response.data.cart] for the query (which has no [userErrors]). *)
Record Response := mkResponse {
  response_cart : option ShopifyCart;
  response_userErrors : list UserError
}.

(** The promise returned by [shopifyFetch] resolves or rejects. *)
Inductive Outcome : Type :=
| Resolved (response : Response)
| Rejected (reason : JsValue).

(** What an observer of the wire sees, oldest first. *)
Inductive Event : Type :=
| Sent (request : Request)
| Settled (request : Request) (outcome : Outcome).

(** The remote service: its answer may depend on everything seen so far. *)
Definition Remote : Type := list Event -> Request -> Outcome.

(** ** The client store *)

Inductive ConsoleEntry : Type :=
| console_warn (text : string)
| console_error (text : string) (err : JsValue).

(** The five [useState] cells of [CartProvider], the browser's
    [localStorage] and the console. A state setter writes the cell; a
    callback reads a cell only through the value captured by its closure,
    which is an explicit argument of the callbacks below. *)
Record Store := mkStore {
  isOpen : bool;
  cartId : option string;
  cart : option ShopifyCart;
  loading : bool;
  error : option string;
  localStorage : gmap string string;
  console : list ConsoleEntry
}.

Definition CART_ID_KEY : string := "cartId".

(** The store of a freshly mounted provider. *)
Definition mount (storage : gmap string string) : Store :=
  mkStore false None None true None storage [].

(** ** Programs *)

Inductive Prog (A : Type) : Type :=
| Ret (a : A)
| Throw (err : JsValue)
| Read (k : Store -> Prog A)
| Write (s : Store) (k : Prog A)
| Await (request : Request) (k : Outcome -> Prog A).

Arguments Ret {A} a.
Arguments Throw {A} err.
Arguments Read {A} k.
Arguments Write {A} s k.
Arguments Await {A} request k.

Fixpoint bind {A B : Type} (p : Prog A) (f : A -> Prog B) : Prog B :=
  match p with
  | Ret a => f a
  | Throw err => Throw err
  | Read k => Read (fun s => bind (k s) f)
  | Write s k => Write s (bind k f)
  | Await q k => Await q (fun o => bind (k o) f)
  end.

Notation "x <- p ;; k" := (bind p (fun x => k))
  (at level 100, p at next level, k at level 200, right associativity,
   only parsing).
Notation "p ;; k" := (bind p (fun _ => k))
  (at level 100, k at level 200, right associativity, only parsing).

(** [try { body } catch (err) { handler }] *)
Fixpoint try_catch {A : Type} (body : Prog A) (handler : JsValue -> Prog A)
  : Prog A :=
  match body with
  | Ret a => Ret a
  | Throw err => handler err
  | Read k => Read (fun s => try_catch (k s) handler)
  | Write s k => Write s (try_catch k handler)
  | Await q k => Await q (fun o => try_catch (k o) handler)
  end.

(** [try { body } finally { cleanup }]: the cleanup runs on both exits and
    the body's completion is kept unless the cleanup itself throws. *)
Fixpoint try_finally {A : Type} (body : Prog A) (cleanup : Prog unit)
  : Prog A :=
  match body with
  | Ret a => cleanup ;; Ret a
  | Throw err => cleanup ;; Throw err
  | Read k => Read (fun s => try_finally (k s) cleanup)
  | Write s k => Write s (try_finally k cleanup)
  | Await q k => Await q (fun o => try_finally (k o) cleanup)
  end.

Definition modify (f : Store -> Store) : Prog unit :=
  Read (fun s => Write (f s) (Ret tt)).

(** How an asynchronous call ends. *)
Inductive Completion (A : Type) : Type :=
| Fulfilled (a : A)
| Threw (err : JsValue).

Arguments Fulfilled {A} a.
Arguments Threw {A} err.

(** *** Running one call to completion *)

Record Run (A : Type) := mkRun {
  final : Store;
  wire : list Event;
  completion : Completion A
}.

Arguments mkRun {A} final wire completion.
Arguments final {A} r.
Arguments wire {A} r.
Arguments completion {A} r.

(** [run remote p s t]: nothing else touches the store while [p] runs;
    [t] is the wire history before the call. *)
Fixpoint run {A : Type} (remote : Remote) (p : Prog A) (s : Store)
  (t : list Event) : Run A :=
  match p with
  | Ret a => mkRun s t (Fulfilled a)
  | Throw err => mkRun s t (Threw err)
  | Read k => run remote (k s) s t
  | Write s' k => run remote k s' t
  | Await q k =>
      let o := remote t q in
      run remote (k o) s (t ++ [Sent q; Settled q o])
  end.

(** *** Running one synchronous stretch *)

(** A call either has settled or is suspended on a request in flight. *)
Inductive Task (A : Type) : Type :=
| Done (c : Completion A)
| Pending (request : Request) (k : Outcome -> Prog A).

Arguments Done {A} c.
Arguments Pending {A} request k.

(** [advance p s t] runs [p] up to its next [await] of the transport: the
    request goes out and control returns to the event loop. *)
Fixpoint advance {A : Type} (p : Prog A) (s : Store) (t : list Event)
  : Store * list Event * Task A :=
  match p with
  | Ret a => (s, t, Done (Fulfilled a))
  | Throw err => (s, t, Done (Threw err))
  | Read k => advance (k s) s t
  | Write s' k => advance k s' t
  | Await q k => (s, t ++ [Sent q], Pending q k)
  end.

(** [start] begins a call; [deliver] settles the request a suspended call
    waits for and runs that call's next stretch. *)
Definition start {A : Type} (p : Prog A) (s : Store) (t : list Event)
  : Store * list Event * Task A :=
  advance p s t.

Definition deliver {A : Type} (task : Task A) (o : Outcome) (s : Store)
  (t : list Event) : Store * list Event * Task A :=
  match task with
  | Done c => (s, t, Done c)
  | Pending q k => advance (k o) s (t ++ [Settled q o])
  end.

(** ** The remote cart gateway ([graphql/cart.js]) *)

Module Gateway.

(** [await shopifyFetch({ query, variables })] *)
Definition shopifyFetch (q : Request) : Prog Response :=
  Await q (fun o =>
    match o with
    | Resolved response => Ret response
    | Rejected reason => Throw reason
    end).

(** [if (userErrors.length > 0) throw new Error(userErrors[0].message)] *)
Definition throw_userErrors (userErrors : list UserError) : Prog unit :=
  if (0 <? length userErrors)%nat then
    match userErrors !! 0%nat with
    | Some e => Throw (JsError (userError_message e))
    | None =>
        Throw
          (JsError "Cannot read properties of undefined (reading 'message')")
    end
  else Ret tt.

(** [createCart(lines = [])] *)
Definition createCart (lines : list CartLineInput)
  : Prog (option ShopifyCart) :=
  response <- shopifyFetch
    (CREATE_CART_MUTATION
       (if (0 <? length lines)%nat then Some lines else None)) ;;
  throw_userErrors (response_userErrors response) ;;
  Ret (response_cart response).

Definition addCartLines (cartId : string) (lines : list CartLineInput)
  : Prog (option ShopifyCart) :=
  response <- shopifyFetch (ADD_CART_LINES_MUTATION cartId lines) ;;
  throw_userErrors (response_userErrors response) ;;
  Ret (response_cart response).

Definition updateCartLines (cartId : string)
  (lines : list CartLineUpdateInput) : Prog (option ShopifyCart) :=
  response <- shopifyFetch (UPDATE_CART_LINES_MUTATION cartId lines) ;;
  throw_userErrors (response_userErrors response) ;;
  Ret (response_cart response).

Definition removeCartLines (cartId : string) (lineIds : list string)
  : Prog (option ShopifyCart) :=
  response <- shopifyFetch (REMOVE_CART_LINES_MUTATION cartId lineIds) ;;
  throw_userErrors (response_userErrors response) ;;
  Ret (response_cart response).

Definition getCart (cartId : string) : Prog (option ShopifyCart) :=
  response <- shopifyFetch (GET_CART_QUERY cartId) ;;
  Ret (response_cart response).

End Gateway.

(** ** The cart context provider *)

(** State setters and the browser objects the callbacks use. *)

Definition with_isOpen (v : bool) (s : Store) : Store :=
  mkStore v (cartId s) (cart s) (loading s) (error s)
    (localStorage s) (console s).

Definition with_cartId (v : option string) (s : Store) : Store :=
  mkStore (isOpen s) v (cart s) (loading s) (error s)
    (localStorage s) (console s).

Definition with_cart (v : option ShopifyCart) (s : Store) : Store :=
  mkStore (isOpen s) (cartId s) v (loading s) (error s)
    (localStorage s) (console s).

Definition with_loading (v : bool) (s : Store) : Store :=
  mkStore (isOpen s) (cartId s) (cart s) v (error s)
    (localStorage s) (console s).

Definition with_error (v : option string) (s : Store) : Store :=
  mkStore (isOpen s) (cartId s) (cart s) (loading s) v
    (localStorage s) (console s).

Definition with_localStorage (v : gmap string string) (s : Store) : Store :=
  mkStore (isOpen s) (cartId s) (cart s) (loading s) (error s)
    v (console s).

Definition with_console (v : list ConsoleEntry) (s : Store) : Store :=
  mkStore (isOpen s) (cartId s) (cart s) (loading s) (error s)
    (localStorage s) v.

Definition setIsOpen (f : bool -> bool) : Prog unit :=
  modify (fun s => with_isOpen (f (isOpen s)) s).

Definition setCartId (v : option string) : Prog unit :=
  modify (with_cartId v).

Definition setCart (v : option ShopifyCart) : Prog unit :=
  modify (with_cart v).

Definition setLoading (v : bool) : Prog unit :=
  modify (with_loading v).

Definition setError (v : option string) : Prog unit :=
  modify (with_error v).

Definition localStorage_getItem (key : string) : Prog (option string) :=
  Read (fun s => Ret (localStorage s !! key)).

Definition localStorage_setItem (key value : string) : Prog unit :=
  modify (fun s => with_localStorage (<[key := value]> (localStorage s)) s).

Definition localStorage_removeItem (key : string) : Prog unit :=
  modify (fun s => with_localStorage (delete key (localStorage s)) s).

Definition console_log (entry : ConsoleEntry) : Prog unit :=
  modify (fun s => with_console (console s ++ [entry]) s).

(** The string a condition such as [if (cartId)] lets through: [null] and
    the empty string are falsy. *)
Definition truthy (v : option string) : option string :=
  match v with
  | Some "" => None
  | Some s => Some s
  | None => None
  end.

(** [err instanceof Error ? err.message : fallback] *)
Definition errorMessage (err : JsValue) (fallback : string) : string :=
  match err with
  | JsError message => message
  | JsOther _ => fallback
  end.

(** [newCart.id]: reading a property of [null] throws a [TypeError]. *)
Definition get_id (c : option ShopifyCart) : Prog string :=
  match c with
  | Some c => Ret (cart_id c)
  | None => Throw (JsError "Cannot read properties of null (reading 'id')")
  end.

Definition storeCartId (id : string) : Prog unit :=
  localStorage_setItem CART_ID_KEY id ;;
  setCartId (Some id).

Definition refreshCart : Prog unit :=
  storedCartId <- localStorage_getItem CART_ID_KEY ;;
  match truthy storedCartId with
  | None => setLoading false ;; Ret tt
  | Some storedCartId =>
      try_finally
        (try_catch
           (setLoading true ;;
            setError None ;;
            fetchedCart <- Gateway.getCart storedCartId ;;
            match fetchedCart with
            | Some _ =>
                setCart fetchedCart ;;
                setCartId (Some storedCartId)
            | None =>
                localStorage_removeItem CART_ID_KEY ;;
                setCartId None ;;
                setCart None
            end)
           (fun err =>
              console_log (console_error "Error fetching cart:" err) ;;
              localStorage_removeItem CART_ID_KEY ;;
              setCartId None ;;
              setCart None ;;
              setError (Some "Failed to fetch cart")))
        (setLoading false)
  end.

(** The callbacks below close over the [cartId] of the render that made
    them: it is their first argument. *)

Definition getOrCreateCart (cartId : option string) : Prog string :=
  match truthy cartId with
  | Some cartId => Ret cartId
  | None =>
      storedCartId <- localStorage_getItem CART_ID_KEY ;;
      match truthy storedCartId with
      | Some storedCartId =>
          setCartId (Some storedCartId) ;;
          Ret storedCartId
      | None =>
          try_catch
            (newCart <- Gateway.createCart [] ;;
             setCart newCart ;;
             newId <- get_id newCart ;;
             storeCartId newId ;;
             Ret newId)
            (fun err =>
               console_log (console_error "Failed to create cart:" err) ;;
               Throw err)
      end
  end.

Definition openCart : Prog unit := setIsOpen (fun _ => true).
Definition closeCart : Prog unit := setIsOpen (fun _ => false).
Definition toggleCart : Prog unit := setIsOpen negb.

(** [addItem(variantId, quantity = 1)]; a caller that omits the quantity
    passes 1. *)
Definition addItem (cartId : option string) (variantId : string)
  (quantity : Z) : Prog (option ShopifyCart) :=
  try_finally
    (try_catch
       (setLoading true ;;
        setError None ;;
        currentCartId <- getOrCreateCart cartId ;;
        updatedCart <- Gateway.addCartLines currentCartId
                         [mkCartLineInput variantId quantity] ;;
        setCart updatedCart ;;
        Ret updatedCart)
       (fun err =>
          setError (Some (errorMessage err "Failed to add item to cart")) ;;
          Throw err))
    (setLoading false).

Definition removeItem (cartId : option string) (lineId : string)
  : Prog (option ShopifyCart) :=
  match truthy cartId with
  | None => Throw (JsError "No cart exists")
  | Some cartId =>
      try_finally
        (try_catch
           (setLoading true ;;
            setError None ;;
            updatedCart <- Gateway.removeCartLines cartId [lineId] ;;
            setCart updatedCart ;;
            Ret updatedCart)
           (fun err =>
              setError
                (Some (errorMessage err "Failed to remove item from cart")) ;;
              Throw err))
        (setLoading false)
  end.

(** [removeItem] here is the callback of the same render: both are
    remade exactly when [cartId] changes. *)
Definition updateItemQuantity (cartId : option string) (lineId : string)
  (quantity : Z) : Prog (option ShopifyCart) :=
  match truthy cartId with
  | None => Throw (JsError "No cart exists")
  | Some cartId' =>
      if quantity <=? 0 then removeItem cartId lineId
      else
        try_finally
          (try_catch
             (setLoading true ;;
              setError None ;;
              updatedCart <- Gateway.updateCartLines cartId'
                               [mkCartLineUpdateInput lineId quantity] ;;
              setCart updatedCart ;;
              Ret updatedCart)
             (fun err =>
                setError
                  (Some (errorMessage err "Failed to update item quantity")) ;;
                Throw err))
          (setLoading false)
  end.

(** ** Derived reads, recomputed from the [cart] cell at every render *)

(** [cart?.lines?.edges?.map((edge) => edge.node) ?? []] *)
Definition items (cart : option ShopifyCart) : list CartLine :=
  from_option cart_lines [] cart.

(** [items.reduce((sum, item) => sum + item.quantity, 0)] *)
Definition itemCount (cart : option ShopifyCart) : Z :=
  foldl (fun sum item => sum + line_quantity item) 0 (items cart).

(** [cart?.checkoutUrl ?? null] *)
Definition checkoutUrl (cart : option ShopifyCart) : option string :=
  cart_checkoutUrl <$> cart.

(** The sum of the quantities of a list of lines, by recursion on it. *)
Fixpoint sum_quantities (ls : list CartLine) : Z :=
  match ls with
  | [] => 0
  | l :: ls => line_quantity l + sum_quantities ls
  end.

(** The builtin [parseFloat] and the type of its results are taken as
    given: the provider only applies it. *)
Section Rendering.

Context {Num : Type} (parseFloat : string -> Num).

(** [parseFloat(cart?.cost?.totalAmount?.amount ?? '0')] *)
Definition totalAmount (cart : option ShopifyCart) : Num :=
  parseFloat
    (from_option (fun c => amount (cost_totalAmount (cart_cost c))) "0" cart).

(** [interface CartContextType]: the value the provider hands to its
    consumers at a render. *)
Record CartContextType := mkCartContext {
  ctx_isOpen : bool;
  ctx_openCart : Prog unit;
  ctx_closeCart : Prog unit;
  ctx_toggleCart : Prog unit;
  ctx_cartId : option string;
  ctx_cart : option ShopifyCart;
  ctx_items : list CartLine;
  ctx_itemCount : Z;
  ctx_totalAmount : Num;
  ctx_checkoutUrl : option string;
  ctx_loading : bool;
  ctx_error : option string;
  ctx_addItem : string -> Z -> Prog (option ShopifyCart);
  ctx_removeItem : string -> Prog (option ShopifyCart);
  ctx_updateItemQuantity : string -> Z -> Prog (option ShopifyCart);
  ctx_refreshCart : Prog unit
}.

(** One render of [CartProvider] over the committed cells: the
    callbacks capture this render's [cartId]. *)
Definition CartProvider (s : Store) : CartContextType :=
  {| ctx_isOpen := isOpen s;
     ctx_openCart := openCart;
     ctx_closeCart := closeCart;
     ctx_toggleCart := toggleCart;
     ctx_cartId := cartId s;
     ctx_cart := cart s;
     ctx_items := items (cart s);
     ctx_itemCount := itemCount (cart s);
     ctx_totalAmount := totalAmount (cart s);
     ctx_checkoutUrl := checkoutUrl (cart s);
     ctx_loading := loading s;
     ctx_error := error s;
     ctx_addItem := addItem (cartId s);
     ctx_removeItem := removeItem (cartId s);
     ctx_updateItemQuantity := updateItemQuantity (cartId s);
     ctx_refreshCart := refreshCart |}.

(** *** The legacy hook ([hooks/use-cart.ts]) *)

Record ShopifyCartHook := mkShopifyCartHook {
  hook_cart : option ShopifyCart;
  hook_cartId : option string;
  hook_loading : bool;
  hook_error : option string;
  hook_items : list CartLine;
  hook_itemCount : Z;
  hook_totalAmount : Num;
  hook_checkoutUrl : option string;
  hook_createCart : Prog (option ShopifyCart);
  hook_addItem : string -> Z -> Prog (option ShopifyCart);
  hook_removeItem : string -> Prog (option ShopifyCart);
  hook_updateItemQuantity : string -> Z -> Prog (option ShopifyCart);
  hook_refreshCart : Prog unit;
  hook_clearCartId : Prog unit
}.

(** [useShopifyCart()], with the value [useCart()] returned. *)
Definition useShopifyCart (context : CartContextType) : ShopifyCartHook :=
  let clearCartId : Prog unit :=
    console_log
      (console_warn
         "clearCartId is deprecated, cart state is managed by CartContext")
  in
  let createCart : Prog (option ShopifyCart) :=
    console_log
      (console_warn
"createCart is deprecated, cart is created automatically by CartContext") ;;
    Ret (ctx_cart context)
  in
  {| hook_cart := ctx_cart context;
     hook_cartId := ctx_cartId context;
     hook_loading := ctx_loading context;
     hook_error := ctx_error context;
     hook_items := ctx_items context;
     hook_itemCount := ctx_itemCount context;
     hook_totalAmount := ctx_totalAmount context;
     hook_checkoutUrl := ctx_checkoutUrl context;
     hook_createCart := createCart;
     hook_addItem := ctx_addItem context;
     hook_removeItem := ctx_removeItem context;
     hook_updateItemQuantity := ctx_updateItemQuantity context;
     hook_refreshCart := ctx_refreshCart context;
     hook_clearCartId := clearCartId |}.

End Rendering.

(** ** A reading of [parseFloat] on plain decimal literals

    An optional sign, digits and an optional fraction, read from the start
    of the string; the result is the exact value [mantissa / 10 ^ scale]
    of the longest such prefix, or [None] (NaN) when it has no digit. *)
Module DecimalLiteral.

Record Decimal := mkDecimal {
  mantissa : Z;
  scale : nat
}.

Definition digit (a : ascii) : option Z :=
  let n := Z.of_nat (nat_of_ascii a) in
  if (48 <=? n) && (n <=? 57) then Some (n - 48) else None.

(** Reads digits into [acc]; returns the value, how many digits were
    read and the rest of the string. *)
Fixpoint digits (s : string) (acc : Z) (n : nat) : Z * nat * string :=
  match s with
  | String a rest =>
      match digit a with
      | Some d => digits rest (10 * acc + d) (S n)
      | None => (acc, n, s)
      end
  | EmptyString => (acc, n, s)
  end.

Definition unsigned (s : string) : option Decimal :=
  let '(int, n, rest) := digits s 0 0%nat in
  let '(all, m, _) :=
    match rest with
    | String "."%char rest' => digits rest' int 0%nat
    | _ => (int, 0%nat, rest)
    end in
  if (n + m =? 0)%nat then None else Some (mkDecimal all m).

Definition parseFloat (s : string) : option Decimal :=
  match s with
  | String "-"%char rest =>
      (fun d => mkDecimal (- mantissa d) (scale d)) <$> unsigned rest
  | String "+"%char rest => unsigned rest
  | _ => unsigned s
  end.

End DecimalLiteral.

(** ** Sessions and what the wire shows *)

(** A mutation as a consumer issues it: the callback of some render (the
    [cartId] its closure captured) applied to its arguments. *)
Inductive Mutation : Type :=
| AddItem (captured : option string) (variantId : string) (quantity : Z)
| RemoveItem (captured : option string) (lineId : string)
| UpdateItemQuantity (captured : option string) (lineId : string)
    (quantity : Z).

Definition perform (m : Mutation) : Prog (option ShopifyCart) :=
  match m with
  | AddItem captured variantId quantity => addItem captured variantId quantity
  | RemoveItem captured lineId => removeItem captured lineId
  | UpdateItemQuantity captured lineId quantity =>
      updateItemQuantity captured lineId quantity
  end.

(** Mutations issued one after the other, each settled before the next
    one starts. *)
Fixpoint session (remote : Remote) (ms : list Mutation) (s : Store)
  (t : list Event) : Store * list Event :=
  match ms with
  | [] => (s, t)
  | m :: ms =>
      let r := run remote (perform m) s t in
      session remote ms (final r) (wire r)
  end.

Definition is_create_call (e : Event) : bool :=
  match e with
  | Sent (CREATE_CART_MUTATION _) => true
  | _ => false
  end.

(** The number of create-cart calls made to the gateway. *)
Definition create_calls (t : list Event) : nat :=
  length (List.filter is_create_call t).

(** The identity a settled create-cart call handed to the client, if it
    did: no user error, a cart, a non-empty id. *)
Definition created_identity (e : Event) : option string :=
  match e with
  | Settled (CREATE_CART_MUTATION _) (Resolved response) =>
      match response_userErrors response with
      | [] => truthy (cart_id <$> response_cart response)
      | _ :: _ => None
      end
  | _ => None
  end.

Definition created_identities (t : list Event) : list string :=
  omap created_identity t.

Definition is_update_call (e : Event) : bool :=
  match e with
  | Sent (UPDATE_CART_LINES_MUTATION _ _) => true
  | _ => false
  end.

(** The persisted identity: the non-empty string under [CART_ID_KEY]. *)
Definition persisted (s : Store) : option string :=
  truthy (localStorage s !! CART_ID_KEY).

(** The error a gateway mutation throws on an outcome of the transport,
    if it throws. *)
Definition failure (o : Outcome) : option JsValue :=
  match o with
  | Rejected reason => Some reason
  | Resolved response =>
      match response_userErrors response with
      | e :: _ => Some (JsError (userError_message e))
      | [] => None
      end
  end.

(** A program none of whose paths ends in a throw. *)
Inductive never_throws {A : Type} : Prog A -> Prop :=
| never_throws_Ret a : never_throws (Ret a)
| never_throws_Read k :
    (forall s, never_throws (k s)) -> never_throws (Read k)
| never_throws_Write s k : never_throws k -> never_throws (Write s k)
| never_throws_Await q k :
    (forall o, never_throws (k o)) -> never_throws (Await q k).

(** The four mutations of the gateway, each with the request it sends. *)
Inductive gateway_mutation : Request -> Prog (option ShopifyCart) -> Prop :=
| mutation_createCart lines :
    gateway_mutation
      (CREATE_CART_MUTATION
         (if (0 <? length lines)%nat then Some lines else None))
      (Gateway.createCart lines)
| mutation_addCartLines id lines :
    gateway_mutation (ADD_CART_LINES_MUTATION id lines)
      (Gateway.addCartLines id lines)
| mutation_updateCartLines id lines :
    gateway_mutation (UPDATE_CART_LINES_MUTATION id lines)
      (Gateway.updateCartLines id lines)
| mutation_removeCartLines id lineIds :
    gateway_mutation (REMOVE_CART_LINES_MUTATION id lineIds)
      (Gateway.removeCartLines id lineIds).

(** ** Sample data *)

Module Sample.

Definition empty_cart : ShopifyCart :=
  mkShopifyCart "gid://shopify/Cart/c1" []
    (mkCartCost (mkMoney "0.0" "USD") None None)
    "https://shop.example/cart/c/c1".

Definition other_cart : ShopifyCart :=
  mkShopifyCart "gid://shopify/Cart/c2" []
    (mkCartCost (mkMoney "0.0" "USD") None None)
    "https://shop.example/cart/c/c2".

Definition line_A : CartLine :=
  mkCartLine "gid://shopify/CartLine/l1" 2
    (mkMerchandise "variant-A" "Default" (mkMoney "5.25" "USD")).

Definition cart_A : ShopifyCart :=
  mkShopifyCart "gid://shopify/Cart/c1" [line_A]
    (mkCartCost (mkMoney "10.50" "USD") None None)
    "https://shop.example/cart/c/c1".

(** A service that creates [empty_cart], adds [line_A] to it, empties
    it again on removal, and knows no other cart. *)
Definition shop : Remote := fun _ q =>
  match q with
  | CREATE_CART_MUTATION _ => Resolved (mkResponse (Some empty_cart) [])
  | ADD_CART_LINES_MUTATION _ _ => Resolved (mkResponse (Some cart_A) [])
  | UPDATE_CART_LINES_MUTATION _ _ => Resolved (mkResponse (Some cart_A) [])
  | REMOVE_CART_LINES_MUTATION _ _ =>
      Resolved (mkResponse (Some empty_cart) [])
  | GET_CART_QUERY _ => Resolved (mkResponse None [])
  end.

(** The same service rejecting every added line with a user error. *)
Definition strict_shop : Remote := fun t q =>
  match q with
  | ADD_CART_LINES_MUTATION _ _ =>
      Resolved (mkResponse None [mkUserError "Invalid merchandise"])
  | _ => shop t q
  end.

(** A service that cannot be reached. *)
Definition offline : Remote := fun _ _ =>
  Rejected (JsError "Failed to fetch").

(** A store that holds [cart_A] under its identity. *)
Definition shopping : Store :=
  mkStore false (Some "gid://shopify/Cart/c1") (Some cart_A) false None
    {[ CART_ID_KEY := "gid://shopify/Cart/c1" ]} [].

(** A page just reloaded: the identity is in [localStorage] and the
    cells are those of a fresh mount. *)
Definition reloaded : Store :=
  mount {[ CART_ID_KEY := "gid://shopify/Cart/c1" ]}.

(** A session that started with nothing persisted. *)
Definition started : Store := with_loading false (mount ∅).

(** Two clicks on "add to cart" in a row: the second call starts in
    the store the first one left when it was suspended, with the
    callback of the render of that store. *)
Definition first_click
  : Store * list Event * Task (option ShopifyCart) :=
  start (addItem (cartId started) "variant-A" 1) started [].

Definition second_click
  : Store * list Event * Task (option ShopifyCart) :=
  start (addItem (cartId first_click.1.1) "variant-A" 1)
    first_click.1.1 first_click.1.2.

(** The service then answers the first call, then the second. *)
Definition first_answered
  : Store * list Event * Task (option ShopifyCart) :=
  deliver first_click.2 (Resolved (mkResponse (Some empty_cart) []))
    second_click.1.1 second_click.1.2.

Definition second_answered
  : Store * list Event * Task (option ShopifyCart) :=
  deliver second_click.2 (Resolved (mkResponse (Some other_cart) []))
    first_answered.1.1 first_answered.1.2.

End Sample.

(** ** Everything a consumer can ask of the provider *)

Inductive Action : Type :=
| Refresh
| Mutate (m : Mutation)
| OpenCart
| CloseCart
| ToggleCart.

(** One action run to completion; what it returned or threw is the
    caller's business and is dropped here. *)
Definition act (remote : Remote) (a : Action) (s : Store) (t : list Event)
  : Store * list Event :=
  match a with
  | Refresh => let r := run remote refreshCart s t in (final r, wire r)
  | Mutate m => let r := run remote (perform m) s t in (final r, wire r)
  | OpenCart => let r := run remote openCart s t in (final r, wire r)
  | CloseCart => let r := run remote closeCart s t in (final r, wire r)
  | ToggleCart => let r := run remote toggleCart s t in (final r, wire r)
  end.

Fixpoint history (remote : Remote) (acts : list Action) (s : Store)
  (t : list Event) : Store * list Event :=
  match acts with
  | [] => (s, t)
  | a :: acts =>
      let '(s', t') := act remote a s t in
      history remote acts s' t'
  end.

(** The current identity, when there is one, is the persisted one. *)
Definition identity_in_sync (s : Store) : Prop :=
  match truthy (cartId s) with
  | Some id => persisted s = Some id
  | None => True
  end.

(** The actions on the drawer's visibility, and the flag after one. *)
Definition is_visibility (a : Action) : bool :=
  match a with
  | OpenCart | CloseCart | ToggleCart => true
  | Refresh | Mutate _ => false
  end.

Definition flag_after (flag : bool) (a : Action) : bool :=
  match a with
  | OpenCart => true
  | CloseCart => false
  | ToggleCart => negb flag
  | Refresh | Mutate _ => flag
  end.

Definition is_remove_call (e : Event) : bool :=
  match e with
  | Sent (REMOVE_CART_LINES_MUTATION _ _) => true
  | _ => false
  end.

(** ** [redirectToCheckout] of [graphql/cart.js]

    [window.location.href] is threaded explicitly. *)
Definition redirectToCheckout (checkoutUrl : option string) (href : string)
  : string :=
  match truthy checkoutUrl with
  | Some checkoutUrl => checkoutUrl
  | None => href
  end.

(** ** The catalog types of the product components *)

Record ProductImage := mkProductImage {
  image_url : string;
  image_altText : option string
}.

Record SelectedOption := mkSelectedOption {
  option_name : string;
  option_value : string
}.

Record ProductVariant := mkProductVariant {
  variant_id : string;
  variant_title : string;
  variant_price : Money;
  variant_availableForSale : bool;
  variant_selectedOptions : list SelectedOption;
  variant_image : option ProductImage
}.

(** [interface Product]; [product_images] and [product_variants] are the
    node lists of [images.edges] and [variants.edges]. *)
Record Product := mkProduct {
  product_id : string;
  product_title : string;
  product_description : option string;
  product_handle : string;
  product_images : list ProductImage;
  product_variants : list ProductVariant
}.

(** ** Consumers of the provider *)

Section Consumers.

Context {Num : Type}.

(** *** The cart drawer ([components/CartDrawer.tsx]) *)

(** [handleCheckout], over [window.location.href]. *)
Definition handleCheckout (hook : @ShopifyCartHook Num) (href : string)
  : string :=
  match truthy (hook_checkoutUrl hook) with
  | Some _ => redirectToCheckout (hook_checkoutUrl hook) href
  | None => href
  end.



(** The plus button and the remove button of a line. *)
Definition increment_onClick (hook : @ShopifyCartHook Num) (item : CartLine)
  : Prog (option ShopifyCart) :=
  hook_updateItemQuantity hook (line_id item) (line_quantity item + 1).

Definition remove_onClick (hook : @ShopifyCartHook Num) (item : CartLine)
  : Prog (option ShopifyCart) :=
  hook_removeItem hook (line_id item).

(** *** The product card ([components/product-card.tsx]) *)

(** [product.variants.edges[0]?.node] *)
Definition firstVariant (product : Product) : option ProductVariant :=
  product_variants product !! 0%nat.

(** [firstVariant?.availableForSale || false] *)
Definition isAvailable (product : Product) : bool :=
  from_option variant_availableForSale false (firstVariant product).

(** [handleAddToCart] of the card, after the two calls on the click
    event; [onAddToCart] is the optional callback of the props. *)
Definition card_handleAddToCart (context : @CartContextType Num)
  (product : Product) (onAddToCart : option (Product -> Prog unit))
  : Prog unit :=
  match firstVariant product, isAvailable product,
        truthy (ctx_cartId context) with
  | Some firstVariant, true, Some cartId =>
      try_catch
        (Gateway.addCartLines cartId
           [mkCartLineInput (variant_id firstVariant) 1] ;;
         ctx_openCart context ;;
         match onAddToCart with
         | Some onAddToCart => onAddToCart product
         | None => Ret tt
         end)
        (fun err =>
           console_log (console_error "Failed to add item to cart:" err))
  | _, _, _ => Ret tt
  end.

End Consumers.

(** *** The cart icon of the header ([components/Header.tsx]) *)

(** The text of the badge, when one is rendered:
    [itemCount > 0 && (itemCount > 99 ? '99+' : itemCount)]. *)
Definition badge (itemCount : Z) : option string :=
  if 0 <? itemCount then
    Some (if 99 <? itemCount then "99+" else pretty itemCount)
  else None.

(** *** The product page ([components/product-detail/index.tsx]) *)

(** The state cells of [ProductDetail] that its option handler reads or
    writes. *)
Record ProductDetail := mkProductDetail {
  pd_product : option Product;
  pd_selectedVariant : option ProductVariant;
  pd_selectedOptions : gmap string string;
  pd_quantity : Z;
  pd_selectedImageIndex : nat
}.

(** [node.selectedOptions.every(option =>
       newOptions[option.name] === option.value)] *)
Definition variant_matches (newOptions : gmap string string)
  (node : ProductVariant) : Prop :=
  Forall (fun selected => newOptions !! option_name selected =
                          Some (option_value selected))
    (variant_selectedOptions node).

Global Instance variant_matches_dec newOptions node :
  Decision (variant_matches newOptions node).
Proof. unfold variant_matches. apply _. Defined.

(** [handleOptionChange(optionName, value)], called with the cells of
    the render that made it; the result holds what the setters wrote. *)
Definition handleOptionChange (st : ProductDetail) (optionName value : string)
  : ProductDetail :=
  let newOptions := <[optionName := value]> (pd_selectedOptions st) in
  let matchingVariant :=
    product ← pd_product st;
    snd <$> list_find (variant_matches newOptions)
              (product_variants product) in
  match matchingVariant with
  | Some node =>
      let imageIndex :=
        image ← variant_image node;
        product ← pd_product st;
        fst <$> list_find (fun edge => image_url edge = image_url image)
                  (product_images product) in
      mkProductDetail (pd_product st) (Some node) newOptions
        (pd_quantity st)
        (default (pd_selectedImageIndex st) imageIndex)
  | None =>
      mkProductDetail (pd_product st) (pd_selectedVariant st) newOptions
        (pd_quantity st) (pd_selectedImageIndex st)
  end.

(** The quantity selector of [ProductDetailInfo]: the minus button calls
    [setQuantity(Math.max(1, quantity - 1))], the plus button
    [setQuantity(quantity + 1)]. *)
Inductive QuantityClick : Type :=
| Minus
| Plus.

Definition quantity_click (quantity : Z) (c : QuantityClick) : Z :=
  match c with
  | Minus => Z.max 1 (quantity - 1)
  | Plus => quantity + 1
  end.

(** ** [truncate] of [lib/utils.ts]

    A JavaScript string is its sequence of UTF-16 code units: [length],
    [slice] and [trim] count and cut in these. *)

Definition JsString : Type := list N.

(** White space and line terminators, which [trim] strips. *)
Definition is_white_space (c : N) : bool :=
  ((9 <=? c) && (c <=? 13) || (c =? 32) || (c =? 160) || (c =? 5760)
   || (8192 <=? c) && (c <=? 8202) || (c =? 8232) || (c =? 8233)
   || (c =? 8239) || (c =? 8287) || (c =? 12288) || (c =? 65279))%N.

Fixpoint trimStart (text : JsString) : JsString :=
  match text with
  | c :: rest => if is_white_space c then trimStart rest else text
  | [] => []
  end.

Definition trimEnd (text : JsString) : JsString :=
  reverse (trimStart (reverse text)).

Definition trim (text : JsString) : JsString :=
  trimEnd (trimStart text).

(** [text.slice(0, end)] for an integer [end]: a negative [end] counts
    from the end of the string. *)
Definition slice_from_0 (text : JsString) (end_ : Z) : JsString :=
  let len := Z.of_nat (length text) in
  let to := if end_ <? 0 then Z.max (len + end_) 0 else Z.min end_ len in
  take (Z.to_nat to) text.

(** ['...'] *)
Definition ellipsis : JsString := [46; 46; 46]%N.

Definition truncate (text : JsString) (maxLength : Z) : JsString :=
  match text with
  | [] => []
  | _ :: _ =>
      if Z.of_nat (length text) <=? maxLength then text
      else trim (slice_from_0 text maxLength) ++ ellipsis
  end.

(** ** Sample catalog *)

Module Catalog.

Definition front : ProductImage :=
  mkProductImage "https://cdn.example/shirt-front.png" None.

Definition red_image : ProductImage :=
  mkProductImage "https://cdn.example/shirt-red.png" (Some "Red shirt").

Definition small_blue : ProductVariant :=
  mkProductVariant "variant-S-blue" "S / Blue" (mkMoney "19.00" "USD") true
    [mkSelectedOption "Size" "S"; mkSelectedOption "Color" "Blue"] None.

Definition small_red : ProductVariant :=
  mkProductVariant "variant-S-red" "S / Red" (mkMoney "19.00" "USD") true
    [mkSelectedOption "Size" "S"; mkSelectedOption "Color" "Red"]
    (Some red_image).

Definition shirt : Product :=
  mkProduct "gid://shopify/Product/p1" "Shirt" None "shirt"
    [front; red_image] [small_blue; small_red].

(** The product page as it is once [shirt] has loaded. *)
Definition page : ProductDetail :=
  mkProductDetail (Some shirt) (Some small_blue)
    {[ "Size" := "S"; "Color" := "Blue" ]} 1 0.

(** A service that knows the cart of [Sample.shopping]. *)
Definition stocked : Remote := fun t q =>
  match q with
  | GET_CART_QUERY _ => Resolved (mkResponse (Some Sample.cart_A) [])
  | _ => Sample.shop t q
  end.

(** A quantity change and, before it settles, a removal of the same
    line; the service answers the change first. *)
Definition change_click : Store * list Event * Task (option ShopifyCart) :=
  start (updateItemQuantity (Some "gid://shopify/Cart/c1")
           "gid://shopify/CartLine/l1" 3)
    Sample.shopping [].

Definition removal_click : Store * list Event * Task (option ShopifyCart) :=
  start (removeItem (Some "gid://shopify/Cart/c1")
           "gid://shopify/CartLine/l1")
    change_click.1.1 change_click.1.2.

Definition change_answered
  : Store * list Event * Task (option ShopifyCart) :=
  deliver change_click.2 (Resolved (mkResponse (Some Sample.cart_A) []))
    removal_click.1.1 removal_click.1.2.

Definition removal_answered
  : Store * list Event * Task (option ShopifyCart) :=
  deliver removal_click.2 (Resolved (mkResponse (Some Sample.empty_cart) []))
    change_answered.1.1 change_answered.1.2.

(** "Hello, world" *)
Definition hello : JsString :=
  [72; 101; 108; 108; 111; 44; 32; 119; 111; 114; 108; 100]%N.

End Catalog.

(** * Properties *)

(** ** The gateway *)

(** C9. When the transport resolves, a gateway mutation throws exactly
    when the response lists user errors, and then throws an [Error] with
    the first one's message; otherwise it returns the response's cart as
    it is. [getCart] returns the response's cart field whatever it is, so
    [null] for a cart the service does not know, and does not throw. *)
Theorem gateway_contract (remote : Remote) (s : Store) (t : list Event)
  (q : Request) (response : Response)
  (Hresolved : remote t q = Resolved response) :
  (forall p, gateway_mutation q p ->
     let r := run remote p s t in
     final r = s /\
     wire r = t ++ [Sent q; Settled q (Resolved response)] /\
     (response_userErrors response = [] ->
        completion r = Fulfilled (response_cart response)) /\
     (forall e es, response_userErrors response = e :: es ->
        completion r = Threw (JsError (userError_message e))) /\
     ((exists err, completion r = Threw err) <->
        response_userErrors response <> [])) /\
  (forall id, q = GET_CART_QUERY id ->
     run remote (Gateway.getCart id) s t =
     mkRun s (t ++ [Sent q; Settled q (Resolved response)])
       (Fulfilled (response_cart response))).
Proof.
  split.
  - intros p Hp r; subst r.
    assert (Hrun : run remote p s t =
      match response_userErrors response with
      | [] => mkRun s (t ++ [Sent q; Settled q (Resolved response)])
                (Fulfilled (response_cart response))
      | e :: _ => mkRun s (t ++ [Sent q; Settled q (Resolved response)])
                (Threw (JsError (userError_message e)))
      end).
    { destruct Hp;
        unfold Gateway.createCart, Gateway.addCartLines,
          Gateway.updateCartLines, Gateway.removeCartLines,
          Gateway.shopifyFetch;
        cbn [run bind]; rewrite Hresolved; cbn;
        destruct (response_userErrors response); reflexivity. }
    rewrite Hrun.
    destruct (response_userErrors response) as [|e es]; cbn;
      repeat split; try congruence; try done.
    + intros [err Herr]; discriminate.
    + intros _; eauto.
  - intros id ->. cbn. rewrite Hresolved. reflexivity.
Qed.

Lemma gateway_contract_witness :
  completion
    (run Sample.strict_shop
       (Gateway.addCartLines "gid://shopify/Cart/c1"
          [mkCartLineInput "variant-A" 2])
       Sample.shopping []) =
  Threw (JsError "Invalid merchandise").
Proof.
  pose proof (gateway_contract Sample.strict_shop Sample.shopping []
                (ADD_CART_LINES_MUTATION "gid://shopify/Cart/c1"
                   [mkCartLineInput "variant-A" 2])
                (mkResponse None [mkUserError "Invalid merchandise"])
                eq_refl) as [Hmut _].
  destruct (Hmut _ (mutation_addCartLines _ _)) as (_ & _ & _ & Hthrow & _).
  exact (Hthrow _ _ eq_refl).
Defined.

(** [failure] is the condition under which a gateway mutation throws,
    and the error it throws. *)
Lemma gateway_mutation_failure (remote : Remote) (s : Store)
  (t : list Event) (q : Request) (p : Prog (option ShopifyCart)) :
  gateway_mutation q p ->
  completion (run remote p s t) =
  match failure (remote t q), remote t q with
  | Some err, _ => Threw err
  | None, Resolved response => Fulfilled (response_cart response)
  | None, Rejected reason => Threw reason
  end.
Proof.
  intros Hp. destruct Hp;
    unfold Gateway.createCart, Gateway.addCartLines,
      Gateway.updateCartLines, Gateway.removeCartLines,
      Gateway.shopifyFetch;
    cbn [run bind];
    match goal with |- context [remote t ?q] => destruct (remote t q) end;
    cbn; try reflexivity;
    match goal with
    | |- context [response_userErrors ?r] => destruct (response_userErrors r)
    end; reflexivity.
Qed.

(** ** Derived reads *)

Lemma foldl_quantities (ls : list CartLine) (acc : Z) :
  foldl (fun sum item => sum + line_quantity item) acc ls =
  acc + sum_quantities ls.
Proof.
  revert acc; induction ls as [|l ls IH]; intros acc; simpl.
  - lia.
  - rewrite IH. lia.
Qed.

Lemma itemCount_sum (c : option ShopifyCart) :
  itemCount c = sum_quantities (items c).
Proof. unfold itemCount. rewrite foldl_quantities. lia. Qed.

(** C4. The reads a render exposes are functions of the snapshot alone:
    two stores with the same snapshot expose the same reads; [itemCount] is
    the sum of the quantities of the snapshot's lines, [totalAmount] is
    [parseFloat] of the amount of its total cost and [checkoutUrl] is its
    checkout URL; without a snapshot they are 0, 0 and [null], given that
    [parseFloat('0')] is the number 0. *)
Theorem derived_reads {Num : Type} (parseFloat : string -> Num) (zero : Num)
  (Hzero : parseFloat "0" = zero) (s : Store) :
  let ctx := CartProvider parseFloat s in
  match cart s with
  | Some c =>
      ctx_items ctx = cart_lines c /\
      ctx_itemCount ctx = sum_quantities (cart_lines c) /\
      ctx_totalAmount ctx =
        parseFloat (amount (cost_totalAmount (cart_cost c))) /\
      ctx_checkoutUrl ctx = Some (cart_checkoutUrl c)
  | None =>
      ctx_items ctx = [] /\
      ctx_itemCount ctx = 0 /\
      ctx_totalAmount ctx = zero /\
      ctx_checkoutUrl ctx = None
  end /\
  forall s' : Store, cart s' = cart s ->
    let ctx' := CartProvider parseFloat s' in
    ctx_items ctx' = ctx_items ctx /\
    ctx_itemCount ctx' = ctx_itemCount ctx /\
    ctx_totalAmount ctx' = ctx_totalAmount ctx /\
    ctx_checkoutUrl ctx' = ctx_checkoutUrl ctx.
Proof.
  intros ctx; subst ctx; cbn [CartProvider ctx_items ctx_itemCount
    ctx_totalAmount ctx_checkoutUrl]. split.
  - destruct (cart s) as [c|]; cbn.
    + repeat split. apply (itemCount_sum (Some c)).
    + repeat split. exact Hzero.
  - intros s' ->. repeat split.
Qed.

Lemma derived_reads_witness :
  ctx_itemCount (CartProvider DecimalLiteral.parseFloat Sample.shopping) = 2 /\
  ctx_totalAmount (CartProvider DecimalLiteral.parseFloat Sample.shopping) =
    Some (DecimalLiteral.mkDecimal 1050 2) /\
  ctx_totalAmount (CartProvider DecimalLiteral.parseFloat (mount ∅)) =
    Some (DecimalLiteral.mkDecimal 0 0).
Proof.
  pose proof (derived_reads DecimalLiteral.parseFloat
                (Some (DecimalLiteral.mkDecimal 0 0)) eq_refl
                Sample.shopping) as [(_ & Hcount & Htotal & _) _].
  pose proof (derived_reads DecimalLiteral.parseFloat
                (Some (DecimalLiteral.mkDecimal 0 0)) eq_refl
                (mount ∅)) as [(_ & _ & Hzero & _) _].
  split; [exact Hcount | split; [exact Htotal | exact Hzero]].
Defined.

(** ** The legacy hook *)

(** C10. The [clearCartId] and [createCart] of the legacy hook only
    print a deprecation warning: they send nothing to the gateway and leave
    [localStorage] and every state cell, hence everything a render exposes,
    as they were; [createCart] returns the snapshot as it is. *)
Theorem legacy_hook_noops {Num : Type} (parseFloat : string -> Num)
  (remote : Remote) (s : Store) (t : list Event) :
  let hook := useShopifyCart (CartProvider parseFloat s) in
  let unchanged (s' : Store) :=
    localStorage s' = localStorage s /\
    cartId s' = cartId s /\
    cart s' = cart s /\
    CartProvider parseFloat s' = CartProvider parseFloat s in
  (let r := run remote (hook_clearCartId hook) s t in
   unchanged (final r) /\ wire r = t /\ completion r = Fulfilled tt) /\
  (let r := run remote (hook_createCart hook) s t in
   unchanged (final r) /\ wire r = t /\ completion r = Fulfilled (cart s)).
Proof. cbn. repeat split. Qed.

(** ** Mutations without an identity *)

(** C6. In a state without a current identity, [removeItem], and
    [updateItemQuantity] with a positive quantity, throw "No cart exists":
    nothing is sent to the gateway and the store (snapshot, identity,
    persisted identity) is left as it was. *)
Theorem no_cart_exists {Num : Type} (parseFloat : string -> Num)
  (remote : Remote) (s : Store) (t : list Event) (lineId : string)
  (Hnone : truthy (cartId s) = None) :
  let ctx := CartProvider parseFloat s in
  run remote (ctx_removeItem ctx lineId) s t =
    mkRun s t (Threw (JsError "No cart exists")) /\
  forall quantity : Z, 0 < quantity ->
    run remote (ctx_updateItemQuantity ctx lineId quantity) s t =
      mkRun s t (Threw (JsError "No cart exists")).
Proof.
  cbn. unfold removeItem, updateItemQuantity. rewrite Hnone. split.
  - reflexivity.
  - intros quantity _. reflexivity.
Qed.

Lemma no_cart_exists_witness :
  run Sample.shop
    (ctx_updateItemQuantity
       (CartProvider DecimalLiteral.parseFloat (mount ∅))
       "gid://shopify/CartLine/l1" 3)
    (mount ∅) [] =
  mkRun (mount ∅) [] (Threw (JsError "No cart exists")).
Proof.
  refine (proj2 (no_cart_exists DecimalLiteral.parseFloat Sample.shop
                   (mount ∅) [] "gid://shopify/CartLine/l1" eq_refl) 3 _).
  lia.
Defined.

(** ** A non-positive quantity removes the line *)

Lemma updateItemQuantity_nonpositive (captured : option string)
  (lineId : string) (quantity : Z) :
  quantity <= 0 ->
  updateItemQuantity captured lineId quantity = removeItem captured lineId.
Proof.
  intros Hq. unfold updateItemQuantity.
  rewrite (proj2 (Z.leb_le quantity 0) Hq).
  unfold removeItem. destruct (truthy captured); reflexivity.
Qed.

Lemma removeItem_wire (remote : Remote) (s : Store) (t : list Event)
  (captured : option string) (id lineId : string) :
  truthy captured = Some id ->
  wire (run remote (removeItem captured lineId) s t) =
  t ++ [Sent (REMOVE_CART_LINES_MUTATION id [lineId]);
        Settled (REMOVE_CART_LINES_MUTATION id [lineId])
          (remote t (REMOVE_CART_LINES_MUTATION id [lineId]))].
Proof.
  intros Hid. unfold removeItem. rewrite Hid. cbn.
  destruct (remote t (REMOVE_CART_LINES_MUTATION id [lineId]))
    as [response|reason]; cbn; [|reflexivity].
  destruct (response_userErrors response); reflexivity.
Qed.

(** C3. With a quantity [q <= 0], [updateItemQuantity(lineId, q)] is
    the very computation [removeItem(lineId)] of the same render: from any
    store the two end in the same store, with the same wire and the same
    returned value or thrown error. When an identity exists that
    computation sends one remove-lines request for the line, so no
    update-lines request is sent for a non-positive quantity. *)
Theorem update_nonpositive_removes {Num : Type} (parseFloat : string -> Num)
  (remote : Remote) (s : Store) (t : list Event) (lineId : string)
  (quantity : Z) (Hq : quantity <= 0) :
  let ctx := CartProvider parseFloat s in
  let r := run remote (ctx_updateItemQuantity ctx lineId quantity) s t in
  ctx_updateItemQuantity ctx lineId quantity = ctx_removeItem ctx lineId /\
  r = run remote (ctx_removeItem ctx lineId) s t /\
  List.filter is_update_call (wire r) = List.filter is_update_call t /\
  forall id, truthy (cartId s) = Some id ->
    let q := REMOVE_CART_LINES_MUTATION id [lineId] in
    wire r = t ++ [Sent q; Settled q (remote t q)].
Proof.
  cbn [CartProvider ctx_updateItemQuantity ctx_removeItem]. cbn zeta.
  rewrite (updateItemQuantity_nonpositive _ _ _ Hq).
  split; [reflexivity | split; [reflexivity |]].
  destruct (truthy (cartId s)) as [id|] eqn:Hid.
  - rewrite (removeItem_wire _ _ _ _ _ _ Hid). split.
    + rewrite List.filter_app. cbn. apply app_nil_r.
    + intros id' [= <-]. reflexivity.
  - unfold removeItem. rewrite Hid. split; [reflexivity | discriminate].
Qed.

Lemma update_nonpositive_removes_witness :
  run Sample.shop
    (ctx_updateItemQuantity
       (CartProvider DecimalLiteral.parseFloat Sample.shopping)
       "gid://shopify/CartLine/l1" 0)
    Sample.shopping [] =
  run Sample.shop
    (ctx_removeItem
       (CartProvider DecimalLiteral.parseFloat Sample.shopping)
       "gid://shopify/CartLine/l1")
    Sample.shopping [].
Proof.
  refine (proj1 (proj2 (update_nonpositive_removes DecimalLiteral.parseFloat
    Sample.shop Sample.shopping [] "gid://shopify/CartLine/l1" 0 _))).
  lia.
Defined.

(** ** Startup validation *)

Lemma never_throws_run {A : Type} (remote : Remote) (p : Prog A) :
  never_throws p ->
  forall s t, exists a, completion (run remote p s t) = Fulfilled a.
Proof.
  induction 1 as [a|k _ IH|s' k _ IH|q k _ IH]; intros s t; cbn.
  - exists a; reflexivity.
  - apply IH.
  - apply IH.
  - apply IH.
Qed.

(** Under any interleaving as well: a stretch of such a program ends
    fulfilled or suspended on a program of the same kind. *)
Lemma never_throws_advance {A : Type} (p : Prog A) :
  never_throws p ->
  forall s t,
    match advance p s t with
    | (_, _, Done c) => exists a, c = Fulfilled a
    | (_, _, Pending _ k) => forall o, never_throws (k o)
    end.
Proof.
  induction 1 as [a|k _ IH|s' k _ IH|q k Hk _]; intros s t; cbn.
  - exists a; reflexivity.
  - apply IH.
  - apply IH.
  - exact Hk.
Qed.

Ltac never_throws_step :=
  match goal with
  | |- never_throws (Ret _) => apply never_throws_Ret
  | |- never_throws (Read _) => apply never_throws_Read; intros ?
  | |- never_throws (Write _ _) => apply never_throws_Write
  | |- never_throws (Await _ _) => apply never_throws_Await; intros [?|?]
  | |- never_throws (match ?x with _ => _ end) => destruct x
  | |- never_throws _ => progress cbn
  | |- never_throws ?p =>
      match p with context [match ?x with _ => _ end] => destruct x end
  end.

Lemma refreshCart_never_throws : never_throws refreshCart.
Proof. unfold refreshCart. repeat never_throws_step. Qed.

(** C7. When a run of [refreshCart] (startup is its first run) finds a
    persisted identity and the gateway answers the fetch with no cart, the
    run ends with the identity removed from [localStorage], no current
    identity, no snapshot, the loading flag down and no error. *)
Theorem stale_identity_discarded (remote : Remote) (s : Store)
  (t : list Event) (id : string) (response : Response)
  (Hid : persisted s = Some id)
  (Hfetch : remote t (GET_CART_QUERY id) = Resolved response)
  (Hnull : response_cart response = None) :
  let r := run remote refreshCart s t in
  completion r = Fulfilled tt /\
  localStorage (final r) = delete CART_ID_KEY (localStorage s) /\
  persisted (final r) = None /\
  cartId (final r) = None /\
  cart (final r) = None /\
  error (final r) = None /\
  loading (final r) = false.
Proof.
  unfold persisted in *. cbn. rewrite Hid. cbn. rewrite Hfetch. cbn.
  rewrite Hnull. cbn. rewrite lookup_delete_eq. repeat split.
Qed.

Lemma stale_identity_discarded_witness :
  persisted (final (run Sample.shop refreshCart Sample.shopping [])) = None /\
  error (final (run Sample.shop refreshCart Sample.shopping [])) = None.
Proof.
  pose proof (stale_identity_discarded Sample.shop Sample.shopping []
                "gid://shopify/Cart/c1" (mkResponse None [])
                eq_refl eq_refl eq_refl) as (_ & _ & Hgone & _ & _ & Herr & _).
  split; [exact Hgone | exact Herr].
Defined.

(** C8. [refreshCart] never throws, whatever the gateway does and
    however its run is interleaved with others. When the fetch of the
    persisted identity fails, the run ends with the identity removed from
    [localStorage], no current identity, no snapshot, the error state set
    and the loading flag down. *)
Theorem refreshCart_absorbs_failure (remote : Remote) (s : Store)
  (t : list Event) :
  never_throws refreshCart /\
  completion (run remote refreshCart s t) = Fulfilled tt /\
  forall id reason,
    persisted s = Some id ->
    remote t (GET_CART_QUERY id) = Rejected reason ->
    let r := run remote refreshCart s t in
    localStorage (final r) = delete CART_ID_KEY (localStorage s) /\
    persisted (final r) = None /\
    cartId (final r) = None /\
    cart (final r) = None /\
    error (final r) = Some "Failed to fetch cart" /\
    loading (final r) = false.
Proof.
  split; [exact refreshCart_never_throws | split].
  - destruct (never_throws_run remote _ refreshCart_never_throws s t)
      as [[] Hdone]. exact Hdone.
  - intros id reason Hid Hfetch. unfold persisted in *. cbn.
    rewrite Hid. cbn. rewrite Hfetch. cbn.
    rewrite lookup_delete_eq. repeat split.
Qed.

Lemma refreshCart_absorbs_failure_witness :
  completion (run Sample.offline refreshCart Sample.shopping []) =
    Fulfilled tt /\
  error (final (run Sample.offline refreshCart Sample.shopping [])) =
    Some "Failed to fetch cart".
Proof.
  pose proof (refreshCart_absorbs_failure Sample.offline Sample.shopping [])
    as (_ & Hdone & Hfail).
  split; [exact Hdone |].
  exact (proj1 (proj2 (proj2 (proj2 (proj2
    (Hfail "gid://shopify/Cart/c1" (JsError "Failed to fetch")
       eq_refl eq_refl)))))).
Defined.

(** ** Identity acquisition *)

Lemma take_first_event (t rest : list Event) (e : Event) :
  take (S (length t)) (t ++ e :: rest) = t ++ [e].
Proof.
  induction t as [|e' t IH]; cbn.
  - rewrite take_0. reflexivity.
  - f_equal. exact IH.
Qed.

(** C2, as the claim states it, fails on a store whose identity is in
    [localStorage] only: the render has no current identity, yet no
    create-cart call is made, and the [cartId] cell changes. *)
Lemma getOrCreateCart_two_branch_counterexample :
  truthy (cartId Sample.reloaded) = None /\
  wire (run Sample.shop (getOrCreateCart (cartId Sample.reloaded))
          Sample.reloaded []) = [] /\
  completion (run Sample.shop (getOrCreateCart (cartId Sample.reloaded))
                Sample.reloaded []) = Fulfilled "gid://shopify/Cart/c1" /\
  final (run Sample.shop (getOrCreateCart (cartId Sample.reloaded))
           Sample.reloaded []) <> Sample.reloaded.
Proof. repeat split. discriminate. Qed.

(** C2, amended. [getOrCreateCart] has three branches. With a current
    identity in the render it returns it: no gateway call, no change.
    Without one but with a persisted identity it adopts that as the current
    identity and returns it: no gateway call, snapshot and [localStorage]
    unchanged. With neither it calls create-cart with no lines and, when
    that returns a cart, adopts the cart as the snapshot and its id as the
    current identity, persists the id and returns it. *)
Theorem getOrCreateCart_contract (remote : Remote) (s : Store)
  (t : list Event) (captured : option string) :
  let r := run remote (getOrCreateCart captured) s t in
  (forall id, truthy captured = Some id ->
     r = mkRun s t (Fulfilled id)) /\
  (forall id, truthy captured = None -> persisted s = Some id ->
     r = mkRun (with_cartId (Some id) s) t (Fulfilled id)) /\
  (truthy captured = None -> persisted s = None ->
   let q := CREATE_CART_MUTATION None in
   take (S (length t)) (wire r) = t ++ [Sent q] /\
   forall response c,
     remote t q = Resolved response ->
     response_userErrors response = [] ->
     response_cart response = Some c ->
     r = mkRun
           (with_cartId (Some (cart_id c))
              (with_localStorage
                 (<[CART_ID_KEY := cart_id c]> (localStorage s))
                 (with_cart (Some c) s)))
           (t ++ [Sent q; Settled q (Resolved response)])
           (Fulfilled (cart_id c))).
Proof.
  unfold persisted. cbn zeta. unfold getOrCreateCart.
  split; [|split].
  - intros id ->. reflexivity.
  - intros id -> Hid. cbn. rewrite Hid. reflexivity.
  - intros -> Hnone. cbn. rewrite Hnone. cbn. split.
    + destruct (remote t (CREATE_CART_MUTATION None)) as [response|reason];
        cbn.
      * destruct (response_userErrors response); cbn;
          [destruct (response_cart response); cbn|];
          apply take_first_event.
      * apply take_first_event.
    + intros response c Hcreate Herrs Hcart.
      rewrite Hcreate. cbn. rewrite Herrs. cbn. rewrite Hcart. reflexivity.
Qed.

Lemma getOrCreateCart_contract_witness :
  run Sample.shop (getOrCreateCart None) Sample.reloaded [] =
    mkRun (with_cartId (Some "gid://shopify/Cart/c1") Sample.reloaded) []
      (Fulfilled "gid://shopify/Cart/c1") /\
  completion (run Sample.shop (getOrCreateCart None) Sample.started []) =
    Fulfilled "gid://shopify/Cart/c1".
Proof.
  split.
  - exact (proj1 (proj2 (getOrCreateCart_contract Sample.shop
      Sample.reloaded [] None)) "gid://shopify/Cart/c1" eq_refl eq_refl).
  - pose proof (proj2 (proj2 (proj2 (getOrCreateCart_contract Sample.shop
      Sample.started [] None)) eq_refl eq_refl)
      (mkResponse (Some Sample.empty_cart) [])
      Sample.empty_cart eq_refl eq_refl eq_refl) as Hrun.
    cbn zeta in Hrun. rewrite Hrun. reflexivity.
Defined.

(** ** A failed add-lines call *)

Lemma failure_Some (o : Outcome) (err : JsValue) :
  failure o = Some err ->
  o = Rejected err \/
  exists response e es,
    o = Resolved response /\
    response_userErrors response = e :: es /\
    err = JsError (userError_message e).
Proof.
  destruct o as [response|reason]; cbn.
  - destruct (response_userErrors response) as [|e es] eqn:Herrs;
      [discriminate|].
    intros [= <-]. right. exists response, e, es. auto.
  - intros [= <-]. left. reflexivity.
Qed.

(** C5, as the claim states it, fails when the call had to create the
    cart first: the add-lines call fails, and the snapshot is the cart
    just created, not the (absent) snapshot from before the call; the
    checkout URL has changed with it. *)
Lemma addItem_failure_counterexample :
  completion (run Sample.strict_shop (addItem None "variant-A" 2)
                Sample.started []) =
    Threw (JsError "Invalid merchandise") /\
  cart Sample.started = None /\
  cart (final (run Sample.strict_shop (addItem None "variant-A" 2)
                 Sample.started [])) = Some Sample.empty_cart /\
  checkoutUrl (cart (final (run Sample.strict_shop
                              (addItem None "variant-A" 2)
                              Sample.started []))) <>
    checkoutUrl (cart Sample.started).
Proof. repeat split. discriminate. Qed.

(** C5, amended. When the add-lines call of [addItem] fails, the error
    is rethrown to the caller, the error state holds its message (the
    fixed text for a thrown value that is not an [Error]), the loading
    flag is down, and the snapshot is the one in place when add-lines was
    called: the snapshot from before the call when an identity existed, in
    the render or persisted, and the snapshot of the cart
    [getOrCreateCart] has just created when none did. *)
Theorem addItem_failure (remote : Remote) (s : Store) (t : list Event)
  (captured : option string) (variantId : string) (quantity : Z) :
  let r := run remote (addItem captured variantId quantity) s t in
  let lines := [mkCartLineInput variantId quantity] in
  let failed (err : JsValue) (snapshot : option ShopifyCart) :=
    completion r = Threw err /\
    cart (final r) = snapshot /\
    error (final r) = Some (errorMessage err "Failed to add item to cart") /\
    loading (final r) = false in
  (forall id err,
     truthy captured = Some id \/
     (truthy captured = None /\ persisted s = Some id) ->
     failure (remote t (ADD_CART_LINES_MUTATION id lines)) = Some err ->
     failed err (cart s)) /\
  (forall response c err,
     truthy captured = None -> persisted s = None ->
     let q := CREATE_CART_MUTATION None in
     remote t q = Resolved response ->
     response_userErrors response = [] ->
     response_cart response = Some c ->
     failure (remote (t ++ [Sent q; Settled q (Resolved response)])
                (ADD_CART_LINES_MUTATION (cart_id c) lines)) = Some err ->
     failed err (Some c) /\
     cartId (final r) = Some (cart_id c) /\
     localStorage (final r) !! CART_ID_KEY = Some (cart_id c)).
Proof.
  unfold persisted. cbn zeta. unfold addItem, getOrCreateCart. split.
  - intros id err [Hid | [Hnone Hid]] Hfail.
    + rewrite Hid. cbn.
      destruct (failure_Some _ _ Hfail)
        as [-> | (response & e & es & -> & Herrs & ->)]; cbn.
      * repeat split.
      * rewrite Herrs. cbn. repeat split.
    + rewrite Hnone. cbn. rewrite Hid. cbn.
      destruct (failure_Some _ _ Hfail)
        as [-> | (response & e & es & -> & Herrs & ->)]; cbn.
      * repeat split.
      * rewrite Herrs. cbn. repeat split.
  - intros response c err -> Hnone Hcreate Herrs Hcart Hfail.
    cbn. rewrite Hnone. cbn. rewrite Hcreate. cbn. rewrite Herrs. cbn.
    rewrite Hcart. cbn.
    destruct (failure_Some _ _ Hfail)
      as [-> | (response' & e & es & -> & Herrs' & ->)]; cbn.
    + rewrite lookup_insert_eq. repeat split.
    + rewrite Herrs'. cbn. rewrite lookup_insert_eq. repeat split.
Qed.

Lemma addItem_failure_witness :
  cart (final (run Sample.strict_shop
                 (addItem (Some "gid://shopify/Cart/c1") "variant-B" 1)
                 Sample.shopping [])) = cart Sample.shopping /\
  error (final (run Sample.strict_shop
                  (addItem (Some "gid://shopify/Cart/c1") "variant-B" 1)
                  Sample.shopping [])) = Some "Invalid merchandise".
Proof.
  pose proof (proj1 (addItem_failure Sample.strict_shop Sample.shopping []
    (Some "gid://shopify/Cart/c1") "variant-B" 1)
    "gid://shopify/Cart/c1" (JsError "Invalid merchandise")
    (or_introl eq_refl) eq_refl) as (_ & Hcart & Herror & _).
  split; [exact Hcart | exact Herror].
Defined.

(** ** One create-cart per session *)

Lemma create_calls_app (t new : list Event) :
  create_calls (t ++ new) = (create_calls t + create_calls new)%nat.
Proof.
  unfold create_calls. rewrite List.filter_app, length_app. reflexivity.
Qed.

Lemma created_identities_app (t new : list Event) :
  created_identities (t ++ new) =
  created_identities t ++ created_identities new.
Proof. apply omap_app. Qed.

(** Splits on the next answer of the remote service, or on the next
    field of a response a program looks at. *)
Ltac next_answer :=
  match goal with
  | service : Remote |- _ =>
      match goal with
      | |- context [service ?t ?q] =>
          destruct (service t q) as [?response|?reason] eqn:?
      end
  | |- context [Gateway.throw_userErrors (response_userErrors ?r)] =>
      destruct (response_userErrors r) eqn:?
  | |- context [get_id (response_cart ?r)] =>
      destruct (response_cart r) eqn:?
  end; cbn.

Lemma perform_step (remote : Remote) (m : Mutation) (s : Store)
  (t : list Event) :
  let r := run remote (perform m) s t in
  exists new, wire r = t ++ new /\
  match persisted s with
  | Some id =>
      persisted (final r) = Some id /\
      create_calls new = 0%nat /\
      created_identities new = []
  | None =>
      (create_calls new <= 1)%nat /\
      (created_identities new = [] \/
       exists id, created_identities new = [id] /\
                  persisted (final r) = Some id)
  end.
Proof.
  cbn zeta. unfold persisted.
  destruct (truthy (localStorage s !! CART_ID_KEY)) as [stored|] eqn:Hstored;
    (destruct m as [captured variantId quantity | captured lineId
                   | captured lineId quantity]; cbn [perform];
     [ unfold addItem, getOrCreateCart
     | unfold removeItem
     | unfold updateItemQuantity, removeItem;
       destruct (quantity <=? 0) ]);
    destruct (truthy captured) as [id|]; cbn; try rewrite Hstored; cbn;
    repeat next_answer.
  all: eexists;
    (split; [first [ reflexivity | symmetry; apply app_nil_r
                   | rewrite <- app_assoc; reflexivity ] |]).
  all: unfold create_calls, created_identities; cbn.
  all: repeat match goal with
         | H : response_userErrors _ = _ |- _ => rewrite H; cbn
         | H : response_cart _ = _ |- _ => rewrite H; cbn
         end.
  all: try rewrite lookup_insert_eq.
  all: try (split; [assumption | split; reflexivity]).
  all: try (split; [lia | left; reflexivity]).
  all: try (split; [reflexivity | split; reflexivity]).
  all: split; [lia|].
  all: match goal with c : ShopifyCart |- _ => destruct (cart_id c) end; cbn.
  all: first [ left; reflexivity
             | right; eexists; split; reflexivity ].
Qed.

Lemma session_persisted (remote : Remote) (ms : list Mutation) :
  forall (s : Store) (t : list Event) (id : string),
    persisted s = Some id ->
    persisted (session remote ms s t).1 = Some id /\
    create_calls (session remote ms s t).2 = create_calls t /\
    created_identities (session remote ms s t).2 = created_identities t.
Proof.
  induction ms as [|m ms IH]; intros s t id Hid; cbn [session].
  - auto.
  - destruct (perform_step remote m s t) as (new & Hwire & Hstep).
    rewrite Hid in Hstep. destruct Hstep as (Hid' & Hcalls & Hcreated).
    destruct (IH _ (wire (run remote (perform m) s t)) _ Hid')
      as (IH1 & IH2 & IH3).
    rewrite IH1, IH2, IH3, Hwire.
    rewrite create_calls_app, created_identities_app, Hcalls, Hcreated.
    rewrite app_nil_r. auto with lia.
Qed.

(** C1, as the claim states it, fails: the provider has no guard
    against overlapping calls. A second [addItem] issued while the first
    still waits for its create-cart finds no identity either, in the
    render or persisted, and makes a create-cart call of its own; both
    calls return an identity. *)
Lemma addItem_overlap_counterexample :
  cartId Sample.first_click.1.1 = None /\
  persisted Sample.first_click.1.1 = None /\
  Sample.second_click.1.2 =
    [Sent (CREATE_CART_MUTATION None); Sent (CREATE_CART_MUTATION None)] /\
  create_calls Sample.second_click.1.2 = 2%nat /\
  created_identities Sample.second_answered.1.2 =
    ["gid://shopify/Cart/c1"; "gid://shopify/Cart/c2"].
Proof. repeat split. Qed.

(** C1, amended. When mutations run one after the other, each settled
    before the next is issued, at most one create-cart call of the session
    returns an identity, whatever [cartId] the closures captured; and from
    the moment an identity is persisted, which a create-cart that returns
    one does at once, no mutation makes a create-cart call. *)
Theorem one_identity_per_session (remote : Remote) (ms : list Mutation)
  (s : Store) (t : list Event) :
  (length (created_identities (session remote ms s t).2)
   <= length (created_identities t) + 1)%nat /\
  (forall id, persisted s = Some id ->
     create_calls (session remote ms s t).2 = create_calls t /\
     persisted (session remote ms s t).1 = Some id).
Proof.
  split.
  - revert s t. induction ms as [|m ms IH]; intros s t; cbn [session].
    + cbn [snd]. lia.
    + destruct (perform_step remote m s t) as (new & Hwire & Hstep).
      destruct (persisted s) as [id|] eqn:Hid.
      * destruct (session_persisted remote (m :: ms) s t id Hid)
          as (_ & _ & Hsame).
        cbn [session] in Hsame. rewrite Hsame. lia.
      * destruct Hstep as (_ & [Hnone | (id & Hone & Hid')]).
        -- specialize (IH (final (run remote (perform m) s t))
                          (wire (run remote (perform m) s t))).
           rewrite Hwire, created_identities_app, Hnone, app_nil_r in IH.
           rewrite Hwire. exact IH.
        -- destruct (session_persisted remote ms _
                       (wire (run remote (perform m) s t)) id Hid')
             as (_ & _ & Hsame).
           rewrite Hsame, Hwire, created_identities_app, Hone, length_app.
           cbn. lia.
  - intros id Hid.
    destruct (session_persisted remote ms s t id Hid) as (H1 & H2 & _).
    auto.
Qed.

Lemma one_identity_per_session_witness :
  create_calls
    (session Sample.shop
       [AddItem None "variant-A" 1; AddItem None "variant-A" 1]
       Sample.reloaded []).2 = 0%nat.
Proof.
  exact (proj1 (proj2 (one_identity_per_session Sample.shop
    [AddItem None "variant-A" 1; AddItem None "variant-A" 1]
    Sample.reloaded []) "gid://shopify/Cart/c1" eq_refl)).
Defined.

(** * Further properties of the provider *)

(** ** [refreshCart], the other outcomes *)

(** X1. With nothing persisted, [refreshCart] makes no gateway call
    and only lowers the loading flag; after startup of a session with an
    empty [localStorage] the reads are those of an empty cart. *)
Theorem refreshCart_nothing_persisted (remote : Remote) (s : Store)
  (t : list Event) (Hnone : persisted s = None) :
  run remote refreshCart s t = mkRun (with_loading false s) t (Fulfilled tt) /\
  (s = mount ∅ ->
   let s' := final (run remote refreshCart s t) in
   loading s' = false /\ error s' = None /\ cartId s' = None /\
   items (cart s') = [] /\ itemCount (cart s') = 0 /\
   checkoutUrl (cart s') = None).
Proof.
  unfold persisted in Hnone.
  assert (Hrun : run remote refreshCart s t =
                 mkRun (with_loading false s) t (Fulfilled tt)).
  { cbn. rewrite Hnone. reflexivity. }
  split; [exact Hrun|]. intros ->. rewrite Hrun. cbn. repeat split.
Qed.

Lemma refreshCart_nothing_persisted_witness :
  run Sample.offline refreshCart (mount ∅) [] =
  mkRun (with_loading false (mount ∅)) [] (Fulfilled tt).
Proof.
  exact (proj1 (refreshCart_nothing_persisted Sample.offline (mount ∅) []
                  eq_refl)).
Defined.

(** X2. When the gateway returns a cart for the persisted identity,
    [refreshCart] adopts the cart as the snapshot and the identity as the
    current one, leaves [localStorage] as it is, clears the error and
    lowers the loading flag; one fetch is sent. *)
Theorem refreshCart_adopts (remote : Remote) (s : Store) (t : list Event)
  (id : string) (response : Response) (c : ShopifyCart)
  (Hid : persisted s = Some id)
  (Hfetch : remote t (GET_CART_QUERY id) = Resolved response)
  (Hcart : response_cart response = Some c) :
  run remote refreshCart s t =
  mkRun
    (with_loading false
       (with_cartId (Some id)
          (with_cart (Some c) (with_error None (with_loading true s)))))
    (t ++ [Sent (GET_CART_QUERY id);
           Settled (GET_CART_QUERY id) (Resolved response)])
    (Fulfilled tt).
Proof.
  unfold persisted in Hid. cbn. rewrite Hid. cbn. rewrite Hfetch. cbn.
  rewrite Hcart. reflexivity.
Qed.

Lemma refreshCart_adopts_witness :
  cart (final (run Catalog.stocked refreshCart Sample.reloaded [])) =
  Some Sample.cart_A.
Proof.
  rewrite (refreshCart_adopts Catalog.stocked
             Sample.reloaded [] "gid://shopify/Cart/c1"
             (mkResponse (Some Sample.cart_A) []) Sample.cart_A
             eq_refl eq_refl eq_refl).
  reflexivity.
Defined.

(** ** The gateway on a rejected transport *)

(** X3. The gateway functions handle nothing themselves: when
    [shopifyFetch] rejects, each of the five rethrows the same reason,
    after exactly one request and without touching the store. *)
Theorem gateway_rethrows (remote : Remote) (s : Store) (t : list Event)
  (q : Request) (reason : JsValue)
  (Hrejected : remote t q = Rejected reason) :
  (forall p, gateway_mutation q p ->
     run remote p s t =
     mkRun s (t ++ [Sent q; Settled q (Rejected reason)]) (Threw reason)) /\
  (forall id, q = GET_CART_QUERY id ->
     run remote (Gateway.getCart id) s t =
     mkRun s (t ++ [Sent q; Settled q (Rejected reason)]) (Threw reason)).
Proof.
  split.
  - intros p Hp. destruct Hp;
      unfold Gateway.createCart, Gateway.addCartLines,
        Gateway.updateCartLines, Gateway.removeCartLines,
        Gateway.shopifyFetch;
      cbn [run bind]; rewrite Hrejected; reflexivity.
  - intros id ->. cbn. rewrite Hrejected. reflexivity.
Qed.

Lemma gateway_rethrows_witness :
  run Sample.offline (Gateway.getCart "gid://shopify/Cart/c1")
    Sample.shopping [] =
  mkRun Sample.shopping
    [Sent (GET_CART_QUERY "gid://shopify/Cart/c1");
     Settled (GET_CART_QUERY "gid://shopify/Cart/c1")
       (Rejected (JsError "Failed to fetch"))]
    (Threw (JsError "Failed to fetch")).
Proof.
  exact (proj2 (gateway_rethrows Sample.offline Sample.shopping []
                  (GET_CART_QUERY "gid://shopify/Cart/c1")
                  (JsError "Failed to fetch") eq_refl)
           "gid://shopify/Cart/c1" eq_refl).
Defined.

(** ** [addItem], the other outcomes *)

(** X4. The first add of a session: with no identity in the render
    or persisted, and a gateway that creates a cart and accepts the line,
    [addItem] sends exactly one create-cart with no lines and then one
    add-lines for the new cart's id with the one line asked for; the
    identity is persisted and current, the snapshot is the cart add-lines
    returned, which is also the value returned. *)
Theorem addItem_first_add (remote : Remote) (s : Store) (t : list Event)
  (captured : option string) (variantId : string) (quantity : Z)
  (created added : Response) (c : ShopifyCart)
  (Hcaptured : truthy captured = None) (Hnone : persisted s = None) :
  let qc := CREATE_CART_MUTATION None in
  let t1 := t ++ [Sent qc; Settled qc (Resolved created)] in
  let qa := ADD_CART_LINES_MUTATION (cart_id c)
              [mkCartLineInput variantId quantity] in
  remote t qc = Resolved created ->
  response_userErrors created = [] ->
  response_cart created = Some c ->
  remote t1 qa = Resolved added ->
  response_userErrors added = [] ->
  let r := run remote (addItem captured variantId quantity) s t in
  wire r = t1 ++ [Sent qa; Settled qa (Resolved added)] /\
  completion r = Fulfilled (response_cart added) /\
  cart (final r) = response_cart added /\
  cartId (final r) = Some (cart_id c) /\
  localStorage (final r) = <[CART_ID_KEY := cart_id c]> (localStorage s) /\
  error (final r) = None /\
  loading (final r) = false.
Proof.
  unfold persisted in Hnone. cbn zeta.
  intros Hcreate Herrs Hcart Hadd Herrs'.
  unfold addItem, getOrCreateCart. rewrite Hcaptured. cbn.
  rewrite Hnone. cbn. rewrite Hcreate. cbn. rewrite Herrs. cbn.
  rewrite Hcart. cbn. rewrite Hadd. cbn. rewrite Herrs'. cbn.
  rewrite <- app_assoc. repeat split.
Qed.

Lemma addItem_first_add_witness :
  itemCount (cart (final (run Sample.shop (addItem None "variant-A" 2)
                            Sample.started []))) = 2 /\
  persisted (final (run Sample.shop (addItem None "variant-A" 2)
                      Sample.started [])) = Some "gid://shopify/Cart/c1".
Proof.
  pose proof (addItem_first_add Sample.shop Sample.started [] None
    "variant-A" 2 (mkResponse (Some Sample.empty_cart) [])
    (mkResponse (Some Sample.cart_A) []) Sample.empty_cart
    eq_refl eq_refl eq_refl eq_refl eq_refl eq_refl eq_refl)
    as (_ & _ & Hcart & _ & Hstorage & _).
  cbn zeta in Hcart, Hstorage. unfold persisted.
  rewrite Hcart, Hstorage. split; reflexivity.
Defined.

(** X5. When the create-cart of [addItem] fails, no add-lines is
    sent; the snapshot, the current identity and [localStorage] are as
    before the call; the failure is logged on the console, set as the
    error state and rethrown, and the loading flag is down. *)
Theorem addItem_create_failure (remote : Remote) (s : Store)
  (t : list Event) (captured : option string) (variantId : string)
  (quantity : Z) (err : JsValue)
  (Hcaptured : truthy captured = None) (Hnone : persisted s = None)
  (Hfail : failure (remote t (CREATE_CART_MUTATION None)) = Some err) :
  let q := CREATE_CART_MUTATION None in
  run remote (addItem captured variantId quantity) s t =
  mkRun
    (with_loading false
       (with_error (Some (errorMessage err "Failed to add item to cart"))
          (with_console
             (console s ++ [console_error "Failed to create cart:" err])
             (with_error None (with_loading true s)))))
    (t ++ [Sent q; Settled q (remote t q)])
    (Threw err).
Proof.
  unfold persisted in Hnone. cbn zeta.
  unfold addItem, getOrCreateCart. rewrite Hcaptured. cbn.
  rewrite Hnone. cbn.
  destruct (failure_Some _ _ Hfail)
    as [-> | (response & e & es & -> & Herrs & ->)]; cbn.
  - reflexivity.
  - rewrite Herrs. reflexivity.
Qed.

Lemma addItem_create_failure_witness :
  cart (final (run Sample.offline (addItem None "variant-A" 1)
                 Sample.started [])) = None /\
  persisted (final (run Sample.offline (addItem None "variant-A" 1)
                      Sample.started [])) = None.
Proof.
  rewrite (addItem_create_failure Sample.offline Sample.started [] None
             "variant-A" 1 (JsError "Failed to fetch")
             eq_refl eq_refl eq_refl).
  split; reflexivity.
Defined.

(** ** [removeItem] and [updateItemQuantity] with an identity *)

(** The request a line mutation sends for the identity [id], and the
    text it sets as the error for a thrown value that is no [Error]. *)
Lemma line_mutation_cases (captured : option string) (lineId : string)
  (quantity : Z) (id : string) :
  truthy captured = Some id -> 0 < quantity ->
  removeItem captured lineId =
    try_finally
      (try_catch
         (setLoading true ;; setError None ;;
          updatedCart <- Gateway.removeCartLines id [lineId] ;;
          setCart updatedCart ;; Ret updatedCart)
         (fun err =>
            setError
              (Some (errorMessage err "Failed to remove item from cart")) ;;
            Throw err))
      (setLoading false) /\
  updateItemQuantity captured lineId quantity =
    try_finally
      (try_catch
         (setLoading true ;; setError None ;;
          updatedCart <- Gateway.updateCartLines id
                           [mkCartLineUpdateInput lineId quantity] ;;
          setCart updatedCart ;; Ret updatedCart)
         (fun err =>
            setError
              (Some (errorMessage err "Failed to update item quantity")) ;;
            Throw err))
      (setLoading false).
Proof.
  intros Hid Hq. unfold removeItem, updateItemQuantity. rewrite Hid.
  rewrite (proj2 (Z.leb_gt quantity 0) Hq). split; reflexivity.
Qed.

(** X6. When the gateway call of [removeItem], or of
    [updateItemQuantity] with a positive quantity, fails, the store is as
    before the call except for the error state, which holds the failure's
    message, and the loading flag, which is down: the snapshot, the
    identity and [localStorage] are untouched, and the failure is
    rethrown. *)
Theorem line_mutation_failure (remote : Remote) (s : Store) (t : list Event)
  (captured : option string) (id lineId : string) (quantity : Z)
  (err : JsValue)
  (Hid : truthy captured = Some id) (Hq : 0 < quantity) :
  let qr := REMOVE_CART_LINES_MUTATION id [lineId] in
  let qu := UPDATE_CART_LINES_MUTATION id
              [mkCartLineUpdateInput lineId quantity] in
  let failed (text : string) :=
    with_loading false
      (with_error (Some (errorMessage err text))
         (with_error None (with_loading true s))) in
  (failure (remote t qr) = Some err ->
   run remote (removeItem captured lineId) s t =
   mkRun (failed "Failed to remove item from cart")
     (t ++ [Sent qr; Settled qr (remote t qr)]) (Threw err)) /\
  (failure (remote t qu) = Some err ->
   run remote (updateItemQuantity captured lineId quantity) s t =
   mkRun (failed "Failed to update item quantity")
     (t ++ [Sent qu; Settled qu (remote t qu)]) (Threw err)).
Proof.
  cbn zeta.
  destruct (line_mutation_cases captured lineId quantity id Hid Hq)
    as [-> ->].
  split; intros Hfail; cbn;
    (destruct (failure_Some _ _ Hfail)
       as [-> | (response & e & es & -> & Herrs & ->)]; cbn;
     [reflexivity | rewrite Herrs; reflexivity]).
Qed.

Lemma line_mutation_failure_witness :
  cart (final (run Sample.offline
                 (removeItem (Some "gid://shopify/Cart/c1")
                    "gid://shopify/CartLine/l1")
                 Sample.shopping [])) = cart Sample.shopping.
Proof.
  rewrite (proj1 (line_mutation_failure Sample.offline Sample.shopping []
    (Some "gid://shopify/Cart/c1") "gid://shopify/Cart/c1"
    "gid://shopify/CartLine/l1" 1 (JsError "Failed to fetch")
    eq_refl eq_refl) eq_refl).
  reflexivity.
Defined.

(** X7. When the gateway accepts it, [removeItem] sends one
    remove-lines request for exactly the line asked for, and
    [updateItemQuantity] with a positive quantity one update-lines request
    for that line and quantity, both under the identity of the render; the
    cart returned replaces the snapshot and is the value returned, the
    error is cleared, the loading flag is down, and the identity and
    [localStorage] are untouched. *)
Theorem line_mutation_success (remote : Remote) (s : Store) (t : list Event)
  (captured : option string) (id lineId : string) (quantity : Z)
  (response : Response)
  (Hid : truthy captured = Some id) (Hq : 0 < quantity)
  (Herrs : response_userErrors response = []) :
  let qr := REMOVE_CART_LINES_MUTATION id [lineId] in
  let qu := UPDATE_CART_LINES_MUTATION id
              [mkCartLineUpdateInput lineId quantity] in
  let replaced :=
    with_loading false
      (with_cart (response_cart response)
         (with_error None (with_loading true s))) in
  (remote t qr = Resolved response ->
   run remote (removeItem captured lineId) s t =
   mkRun replaced (t ++ [Sent qr; Settled qr (Resolved response)])
     (Fulfilled (response_cart response))) /\
  (remote t qu = Resolved response ->
   run remote (updateItemQuantity captured lineId quantity) s t =
   mkRun replaced (t ++ [Sent qu; Settled qu (Resolved response)])
     (Fulfilled (response_cart response))).
Proof.
  cbn zeta.
  destruct (line_mutation_cases captured lineId quantity id Hid Hq)
    as [-> ->].
  split; intros Hok; cbn; rewrite Hok; cbn; rewrite Herrs; reflexivity.
Qed.

Lemma line_mutation_success_witness :
  itemCount (cart (final (run Sample.shop
                           (removeItem (Some "gid://shopify/Cart/c1")
                              "gid://shopify/CartLine/l1")
                           Sample.shopping []))) = 0.
Proof.
  rewrite (proj1 (line_mutation_success Sample.shop Sample.shopping []
    (Some "gid://shopify/Cart/c1") "gid://shopify/Cart/c1"
    "gid://shopify/CartLine/l1" 1 (mkResponse (Some Sample.empty_cart) [])
    eq_refl eq_refl eq_refl) eq_refl).
  reflexivity.
Defined.

(** ** What every mutation leaves behind *)

(** Splits on what a mutation reads from the render and from
    [localStorage], then on every answer of the remote service. *)
Ltac next_case :=
  first
    [ next_answer
    | match goal with
      | H : truthy (localStorage ?s !! CART_ID_KEY) = _
        |- context [truthy (localStorage ?s !! CART_ID_KEY)] =>
          rewrite H; cbn
      | |- context [truthy (localStorage ?s !! CART_ID_KEY)] =>
          destruct (truthy (localStorage s !! CART_ID_KEY)) eqn:?; cbn
      end ].

Ltac mutation_cases m :=
  destruct m as [?captured ?variantId ?quantity | ?captured ?lineId
                | ?captured ?lineId ?quantity]; cbn [perform];
  [ unfold addItem, getOrCreateCart
  | unfold removeItem
  | unfold updateItemQuantity, removeItem;
    match goal with
    | |- context [?q <=? 0] => destruct (q <=? 0)
    end ];
  match goal with
  | |- context [truthy ?captured] =>
      is_var captured; destruct (truthy captured) eqn:?
  end; cbn; repeat next_case.

(** X8. Whatever the gateway answers, a mutation that returns has
    made the value it returns the snapshot, cleared the error and lowered
    the loading flag; a mutation that throws has either changed nothing
    and sent nothing (there was no identity), or lowered the loading flag
    and set the error state, to the message of the [Error] thrown. *)
Theorem mutation_postcondition (remote : Remote) (m : Mutation) (s : Store)
  (t : list Event) :
  let r := run remote (perform m) s t in
  match completion r with
  | Fulfilled c =>
      cart (final r) = c /\ error (final r) = None /\
      loading (final r) = false
  | Threw err =>
      (final r = s /\ wire r = t) \/
      (loading (final r) = false /\
       exists text, error (final r) = Some text /\
         forall message, err = JsError message -> text = message)
  end.
Proof.
  cbn zeta. mutation_cases m.
  all: try (repeat split; reflexivity).
  all: try (left; split; reflexivity).
  all: right; split; [reflexivity|]; eexists; split; [reflexivity|].
  all: intros message Heq;
    first [ subst; reflexivity | injection Heq as <-; reflexivity ].
Qed.

(** ** Visibility and data are independent *)

Lemma with_isOpen_isOpen (s : Store) : with_isOpen (isOpen s) s = s.
Proof. destruct s; reflexivity. Qed.

Lemma refreshCart_with_isOpen (remote : Remote) (flag : bool) (s : Store)
  (t : list Event) :
  run remote refreshCart (with_isOpen flag s) t =
  mkRun (with_isOpen flag (final (run remote refreshCart s t)))
    (wire (run remote refreshCart s t))
    (completion (run remote refreshCart s t)).
Proof.
  unfold refreshCart. cbn.
  destruct (truthy (localStorage s !! CART_ID_KEY)); cbn; [|reflexivity].
  repeat next_answer; try reflexivity.
  destruct (response_cart response); reflexivity.
Qed.

Lemma perform_with_isOpen (remote : Remote) (m : Mutation) (flag : bool)
  (s : Store) (t : list Event) :
  run remote (perform m) (with_isOpen flag s) t =
  mkRun (with_isOpen flag (final (run remote (perform m) s t)))
    (wire (run remote (perform m) s t))
    (completion (run remote (perform m) s t)).
Proof. mutation_cases m; reflexivity. Qed.

Lemma act_data_with_isOpen (remote : Remote) (a : Action) (flag : bool)
  (s : Store) (t : list Event) :
  is_visibility a = false ->
  act remote a (with_isOpen flag s) t =
  (with_isOpen flag (act remote a s t).1, (act remote a s t).2).
Proof.
  destruct a; try discriminate; intros _; cbn [act].
  - rewrite refreshCart_with_isOpen. reflexivity.
  - rewrite perform_with_isOpen. reflexivity.
Qed.

Lemma history_data_with_isOpen (remote : Remote) (acts : list Action) :
  forallb (fun a => negb (is_visibility a)) acts = true ->
  forall flag s t,
    history remote acts (with_isOpen flag s) t =
    (with_isOpen flag (history remote acts s t).1,
     (history remote acts s t).2).
Proof.
  induction acts as [|a acts IH]; intros Hdata flag s t; cbn [history].
  - reflexivity.
  - cbn in Hdata. apply andb_prop in Hdata as [Ha Hacts].
    apply negb_true_iff in Ha.
    rewrite (act_data_with_isOpen _ _ _ _ _ Ha).
    destruct (act remote a s t) as [s' t']. cbn [fst snd].
    apply IH. exact Hacts.
Qed.

Lemma forallb_filter_data (acts : list Action) :
  forallb (fun a => negb (is_visibility a))
    (List.filter (fun a => negb (is_visibility a)) acts) = true.
Proof.
  induction acts as [|a acts IH]; cbn; [reflexivity|].
  destruct (is_visibility a) eqn:Ha; cbn; [exact IH|].
  rewrite Ha. exact IH.
Qed.

(** X9. Visibility and data do not meet. In any sequence of actions,
    [openCart], [closeCart] and [toggleCart] send nothing and write only
    the [isOpen] cell, and [refreshCart] and the mutations neither read
    nor write it: the wire and every other cell are those of the same
    sequence without the visibility actions, and [isOpen] is what the
    visibility actions alone make of it. *)
Theorem visibility_independent (remote : Remote) (acts : list Action)
  (s : Store) (t : list Event) :
  let data := List.filter (fun a => negb (is_visibility a)) acts in
  (history remote acts s t).2 = (history remote data s t).2 /\
  (history remote acts s t).1 =
    with_isOpen (foldl flag_after (isOpen s) acts)
      (history remote data s t).1.
Proof.
  cbn zeta. revert s t.
  induction acts as [|a acts IH]; intros s t.
  - cbn. split; [reflexivity | symmetry; apply with_isOpen_isOpen].
  - destruct (is_visibility a) eqn:Ha.
    + assert (Hact : act remote a s t =
                     (with_isOpen (flag_after (isOpen s) a) s, t)).
      { destruct a; try discriminate; reflexivity. }
      cbn [history List.filter foldl]. rewrite Ha, Hact. cbn [negb].
      destruct (IH (with_isOpen (flag_after (isOpen s) a) s) t)
        as [IHwire IHstore].
      rewrite IHwire, IHstore.
      rewrite (history_data_with_isOpen remote _
                 (forallb_filter_data acts)).
      split; reflexivity.
    + cbn [history List.filter foldl]. rewrite Ha. cbn [negb history].
      assert (Hflag : isOpen (act remote a s t).1 = isOpen s
                      /\ flag_after (isOpen s) a = isOpen s).
      { split; [|destruct a; try discriminate; reflexivity].
        pose proof (act_data_with_isOpen remote a (isOpen s) s t Ha) as Hc.
        rewrite with_isOpen_isOpen in Hc. rewrite Hc. reflexivity. }
      destruct Hflag as [Hopen ->].
      destruct (act remote a s t) as [s' t']. cbn [fst] in Hopen.
      rewrite <- Hopen. apply IH.
Qed.

(** ** The current identity is the persisted one *)

Lemma truthy_fixed (v : option string) (id : string) :
  truthy v = Some id -> truthy (Some id) = Some id.
Proof.
  destruct v as [[|a v]|]; cbn; try discriminate.
  intros [= <-]. reflexivity.
Qed.

Lemma refreshCart_in_sync (remote : Remote) (s : Store) (t : list Event) :
  identity_in_sync s ->
  identity_in_sync (final (run remote refreshCart s t)).
Proof.
  unfold identity_in_sync, persisted, refreshCart. intros Hsync. cbn.
  destruct (truthy (localStorage s !! CART_ID_KEY)) as [stored|] eqn:Hstored;
    cbn; [|rewrite Hstored; exact Hsync].
  repeat next_answer; try exact I.
  destruct (response_cart response); cbn; [|exact I].
  pose proof (truthy_fixed _ _ Hstored) as Hfixed. cbn in Hfixed.
  rewrite Hfixed. exact Hstored.
Qed.

Lemma perform_in_sync (remote : Remote) (m : Mutation) (s : Store)
  (t : list Event) :
  identity_in_sync s ->
  identity_in_sync (final (run remote (perform m) s t)).
Proof.
  unfold identity_in_sync, persisted.
  destruct (truthy (localStorage s !! CART_ID_KEY)) as [stored|] eqn:Hstored;
    intros Hsync; mutation_cases m; try exact Hsync.
  all: try (pose proof (truthy_fixed _ _ Hstored) as Hfixed; cbn in Hfixed;
            rewrite Hfixed; reflexivity).
  all: rewrite lookup_insert_eq;
    match goal with
    | c : ShopifyCart |- _ => destruct (cart_id c); [exact I | reflexivity]
    end.
Qed.

(** X10. Whenever the [cartId] cell holds an identity, [localStorage]
    holds the same one: every action of the provider keeps this, so it
    holds after any sequence of actions that follows a mount. *)
Theorem identity_stays_in_sync (remote : Remote) (acts : list Action)
  (s : Store) (t : list Event) :
  (identity_in_sync s -> identity_in_sync (history remote acts s t).1) /\
  (forall storage, s = mount storage ->
     identity_in_sync (history remote acts s t).1).
Proof.
  assert (Hkeep : forall s t, identity_in_sync s ->
                  identity_in_sync (history remote acts s t).1).
  { clear s t. induction acts as [|a acts IH]; intros s t Hsync;
      cbn [history]; [exact Hsync|].
    assert (Hact : identity_in_sync (act remote a s t).1).
    { destruct a; cbn [act fst].
      - apply refreshCart_in_sync, Hsync.
      - apply perform_in_sync, Hsync.
      - exact Hsync.
      - exact Hsync.
      - exact Hsync. }
    destruct (act remote a s t) as [s' t']. apply IH, Hact. }
  split; [apply Hkeep|].
  intros storage ->. apply Hkeep. exact I.
Qed.

Lemma identity_stays_in_sync_witness :
  identity_in_sync
    (history Sample.shop
       [Mutate (AddItem None "variant-A" 1); Refresh; ToggleCart]
       (mount ∅) []).1.
Proof.
  exact (proj2 (identity_stays_in_sync Sample.shop
    [Mutate (AddItem None "variant-A" 1); Refresh; ToggleCart]
    (mount ∅) []) ∅ eq_refl).
Defined.

(** * Properties of the consumers *)

(** ** The cart drawer *)

(** X11. The checkout button navigates exactly when the snapshot has
    a non-empty checkout URL, and then to that URL; without a snapshot, or
    with an empty URL, the location stays what it is. *)
Theorem checkout_navigation {Num : Type} (parseFloat : string -> Num)
  (s : Store) (href : string) :
  let hook := useShopifyCart (CartProvider parseFloat s) in
  (cart s = None -> handleCheckout hook href = href) /\
  (forall c, cart s = Some c ->
     (cart_checkoutUrl c = "" -> handleCheckout hook href = href) /\
     (cart_checkoutUrl c <> "" ->
      handleCheckout hook href = cart_checkoutUrl c)).
Proof.
  cbn zeta. unfold handleCheckout, redirectToCheckout. cbn. split.
  - intros ->. reflexivity.
  - intros c ->. cbn. split.
    + intros ->. reflexivity.
    + intros Hurl. destruct (cart_checkoutUrl c); [congruence | reflexivity].
Qed.

Lemma checkout_navigation_witness :
  handleCheckout
    (useShopifyCart (CartProvider DecimalLiteral.parseFloat Sample.shopping))
    "https://shop.example/" = "https://shop.example/cart/c/c1".
Proof.
  refine (proj2 (proj2 (checkout_navigation DecimalLiteral.parseFloat
    Sample.shopping "https://shop.example/") Sample.cart_A eq_refl) _).
  discriminate.
Defined.




(** ** The product card *)

Lemma try_catch_never_throws {A : Type} (body : Prog A)
  (handler : JsValue -> Prog A) :
  (forall err, never_throws (handler err)) ->
  never_throws (try_catch body handler).
Proof.
  intros Hhandler.
  induction body as [a|err|k IH|s k IH|q k IH]; cbn.
  - constructor.
  - apply Hhandler.
  - constructor. exact IH.
  - constructor. exact IH.
  - constructor. exact IH.
Qed.

(** X13. The add-to-cart of a product card never throws, whatever the
    gateway and the callback of its props do; and it does nothing at all,
    so creates no cart, when the product has no first variant, when that
    variant is not available, or when the render has no identity. *)
Theorem card_add_guarded {Num : Type} (parseFloat : string -> Num)
  (s : Store) (product : Product)
  (onAddToCart : option (Product -> Prog unit)) :
  let click :=
    card_handleAddToCart (CartProvider parseFloat s) product onAddToCart in
  never_throws click /\
  (firstVariant product = None \/ isAvailable product = false \/
   truthy (cartId s) = None ->
   click = Ret tt).
Proof.
  cbn zeta. unfold card_handleAddToCart. cbn [CartProvider ctx_cartId].
  split.
  - destruct (firstVariant product), (isAvailable product),
      (truthy (cartId s));
      first [ apply never_throws_Ret
            | apply try_catch_never_throws; intros err;
              unfold console_log, modify; repeat never_throws_step ].
  - intros [-> | [-> | ->]].
    + reflexivity.
    + destruct (firstVariant product); reflexivity.
    + destruct (firstVariant product), (isAvailable product); reflexivity.
Qed.

Lemma card_add_guarded_witness :
  card_handleAddToCart (CartProvider DecimalLiteral.parseFloat Sample.started)
    Catalog.shirt None = Ret tt.
Proof.
  refine (proj2 (card_add_guarded DecimalLiteral.parseFloat Sample.started
    Catalog.shirt None) _).
  right. right. reflexivity.
Defined.

(** X14. The add-to-cart of a product card goes past the provider:
    with no callback in its props, whatever the gateway answers it leaves
    the snapshot, the identity, the loading flag, the error state and
    [localStorage] as they were, so the reads of the cart do not show the
    line it added. When the gateway accepts the line it opens the drawer;
    when not it only logs the failure on the console. *)
Theorem card_add_bypasses_snapshot {Num : Type} (parseFloat : string -> Num)
  (remote : Remote) (s : Store) (t : list Event) (product : Product)
  (variant : ProductVariant) (id : string)
  (Hvariant : firstVariant product = Some variant)
  (Havailable : variant_availableForSale variant = true)
  (Hid : truthy (cartId s) = Some id) :
  let q := ADD_CART_LINES_MUTATION id
             [mkCartLineInput (variant_id variant) 1] in
  let r := run remote
             (card_handleAddToCart (CartProvider parseFloat s) product None)
             s t in
  wire r = t ++ [Sent q; Settled q (remote t q)] /\
  completion r = Fulfilled tt /\
  cart (final r) = cart s /\ cartId (final r) = cartId s /\
  loading (final r) = loading s /\ error (final r) = error s /\
  localStorage (final r) = localStorage s /\
  match failure (remote t q) with
  | None => final r = with_isOpen true s
  | Some err =>
      final r =
      with_console
        (console s ++ [console_error "Failed to add item to cart:" err]) s
  end.
Proof.
  cbn zeta. unfold card_handleAddToCart, isAvailable.
  cbn [CartProvider ctx_cartId ctx_openCart].
  rewrite Hvariant, Hid. cbn [from_option]. rewrite Havailable. cbn.
  destruct (remote t _) as [response|reason]; cbn.
  - destruct (response_userErrors response); cbn; repeat split.
  - repeat split.
Qed.

Lemma card_add_bypasses_snapshot_witness :
  itemCount
    (cart (final (run Catalog.stocked
                    (card_handleAddToCart
                       (CartProvider DecimalLiteral.parseFloat
                          (with_cart (Some Sample.empty_cart)
                             Sample.shopping))
                       Catalog.shirt None)
                    (with_cart (Some Sample.empty_cart) Sample.shopping)
                    []))) = 0.
Proof.
  pose proof (card_add_bypasses_snapshot DecimalLiteral.parseFloat
    Catalog.stocked (with_cart (Some Sample.empty_cart) Sample.shopping) []
    Catalog.shirt Catalog.small_blue "gid://shopify/Cart/c1"
    eq_refl eq_refl eq_refl) as (_ & _ & Hcart & _).
  cbn zeta in Hcart. rewrite Hcart. reflexivity.
Defined.

(** ** The product page *)

(** X15. Choosing an option always records the choice, and leaves the
    product and the quantity alone. If some variant of the product agrees
    with the new choices on every one of its options, the first such
    variant in the product's order becomes the selected one; if none does,
    or no product is loaded, the selected variant and the image shown stay
    what they were, even though the choices changed. *)
Theorem option_change_selects (st : ProductDetail) (optionName value : string) :
  let newOptions := <[optionName := value]> (pd_selectedOptions st) in
  let st' := handleOptionChange st optionName value in
  pd_selectedOptions st' = newOptions /\
  pd_selectedOptions st' !! optionName = Some value /\
  pd_product st' = pd_product st /\
  pd_quantity st' = pd_quantity st /\
  (forall p i v,
     pd_product st = Some p ->
     product_variants p !! i = Some v ->
     variant_matches newOptions v ->
     (forall j w, product_variants p !! j = Some w -> (j < i)%nat ->
                  ~ variant_matches newOptions w) ->
     pd_selectedVariant st' = Some v) /\
  ((forall p, pd_product st = Some p ->
      Forall (fun v => ~ variant_matches newOptions v)
        (product_variants p)) ->
   pd_selectedVariant st' = pd_selectedVariant st /\
   pd_selectedImageIndex st' = pd_selectedImageIndex st).
Proof.
  cbn zeta. unfold handleOptionChange.
  destruct (pd_product st) as [p|] eqn:Hp; cbn.
  - destruct (list_find _ (product_variants p)) as [[i v]|] eqn:Hfind; cbn.
    + apply list_find_Some in Hfind as (Hi & Hv & Hfirst).
      split; [reflexivity|]. split; [apply lookup_insert_eq|].
      split; [reflexivity|]. split; [reflexivity|]. split.
      * intros p' i' v' [= <-] Hi' Hv' Hfirst'.
        destruct (Nat.lt_trichotomy i i') as [Hlt | [-> | Hgt]].
        -- destruct (Hfirst' _ _ Hi Hlt Hv).
        -- congruence.
        -- destruct (Hfirst _ _ Hi' Hgt Hv').
      * intros Hnone. specialize (Hnone p eq_refl).
        rewrite Forall_lookup in Hnone. destruct (Hnone _ _ Hi Hv).
    + apply list_find_None in Hfind.
      split; [reflexivity|]. split; [apply lookup_insert_eq|].
      split; [reflexivity|]. split; [reflexivity|]. split.
      * intros p' i' v' [= <-] Hi' Hv' _.
        rewrite Forall_lookup in Hfind. destruct (Hfind _ _ Hi' Hv').
      * intros _. split; reflexivity.
  - split; [reflexivity|]. split; [apply lookup_insert_eq|].
    split; [reflexivity|]. split; [reflexivity|]. split.
    + intros p i v [=].
    + intros _. split; reflexivity.
Qed.

Lemma option_change_selects_witness :
  pd_selectedVariant (handleOptionChange Catalog.page "Color" "Red") =
  Some Catalog.small_red.
Proof.
  refine (proj1 (proj2 (proj2 (proj2 (proj2
    (option_change_selects Catalog.page "Color" "Red")))))
    Catalog.shirt 1%nat Catalog.small_red eq_refl eq_refl _ _).
  - repeat constructor.
  - intros j w Hj Hlt. destruct j as [|j]; [|lia].
    injection Hj as <-. intros Hmatch.
    apply Forall_cons in Hmatch as [_ Hmatch].
    apply Forall_cons in Hmatch as [Hcolor _]. discriminate Hcolor.
Defined.

(** X16. Choosing an option keeps the index of the image shown
    within the product's images; when it moves the index, it moves it to
    the first image that has the URL of the newly selected variant's
    image. *)
Theorem option_change_image_in_bounds (st : ProductDetail)
  (optionName value : string) (p : Product)
  (Hp : pd_product st = Some p)
  (Hbound : (pd_selectedImageIndex st < length (product_images p))%nat) :
  let st' := handleOptionChange st optionName value in
  (pd_selectedImageIndex st' < length (product_images p))%nat /\
  (pd_selectedImageIndex st' <> pd_selectedImageIndex st ->
   exists v image shown,
     pd_selectedVariant st' = Some v /\
     variant_image v = Some image /\
     product_images p !! pd_selectedImageIndex st' = Some shown /\
     image_url shown = image_url image /\
     forall j other, product_images p !! j = Some other ->
       (j < pd_selectedImageIndex st')%nat ->
       image_url other <> image_url image).
Proof.
  cbn zeta. unfold handleOptionChange. rewrite Hp. cbn.
  destruct (list_find _ (product_variants p)) as [[i v]|]; cbn;
    [|split; [exact Hbound | congruence]].
  destruct (variant_image v) as [image|] eqn:Himage; cbn;
    [|split; [exact Hbound | congruence]].
  destruct (list_find _ (product_images p)) as [[k shown]|] eqn:Hfind; cbn;
    [|split; [exact Hbound | congruence]].
  apply list_find_Some in Hfind as (Hk & Hurl & Hfirst). split.
  - apply lookup_lt_Some in Hk. exact Hk.
  - intros _. exists v, image, shown. repeat split; auto.
Qed.

Lemma option_change_image_in_bounds_witness :
  (pd_selectedImageIndex (handleOptionChange Catalog.page "Color" "Red")
   < 2)%nat.
Proof.
  refine (proj1 (option_change_image_in_bounds Catalog.page "Color" "Red"
                   Catalog.shirt eq_refl _)).
  cbn. lia.
Defined.

(** X17. The quantity selector never leaves the positive numbers:
    from a quantity of at least 1, which the page starts with, any
    sequence of clicks on minus and plus gives a quantity of at least 1,
    so [addItem] is never asked for less. *)
Theorem quantity_stays_positive (clicks : list QuantityClick) (quantity : Z)
  (Hpositive : 1 <= quantity) :
  1 <= foldl quantity_click quantity clicks.
Proof.
  revert quantity Hpositive.
  induction clicks as [|c clicks IH]; intros quantity Hpositive; cbn.
  - exact Hpositive.
  - apply IH. destruct c; cbn; lia.
Qed.

Lemma quantity_stays_positive_witness :
  1 <= foldl quantity_click 1 [Minus; Minus; Plus; Minus; Minus].
Proof.
  apply (quantity_stays_positive [Minus; Minus; Plus; Minus; Minus] 1).
  lia.
Defined.

(** ** [truncate] *)

Lemma trimStart_split (text : JsString) :
  exists spaces,
    text = spaces ++ trimStart text /\
    forallb is_white_space spaces = true.
Proof.
  induction text as [|c text (spaces & Htext & Hspaces)]; cbn.
  - exists []. split; reflexivity.
  - destruct (is_white_space c) eqn:Hc.
    + exists (c :: spaces). cbn. rewrite Hc, Hspaces, <- Htext.
      split; reflexivity.
    + exists []. split; reflexivity.
Qed.

Lemma trimStart_head (text : JsString) (c : N) (rest : JsString) :
  trimStart text = c :: rest -> is_white_space c = false.
Proof.
  induction text as [|c' text IH]; cbn; [discriminate|].
  destruct (is_white_space c') eqn:Hc'; [exact IH|].
  intros [= -> _]. exact Hc'.
Qed.

Lemma trimEnd_split (text : JsString) :
  exists spaces,
    text = trimEnd text ++ spaces /\
    forallb is_white_space spaces = true.
Proof.
  unfold trimEnd.
  destruct (trimStart_split (reverse text)) as (spaces & Htext & Hspaces).
  exists (reverse spaces). split.
  - rewrite <- reverse_app, <- Htext, reverse_involutive. reflexivity.
  - rewrite forallb_forall in Hspaces. apply forallb_forall.
    intros c Hc. apply Hspaces. apply list_elem_of_In.
    apply list_elem_of_In in Hc. rewrite elem_of_reverse in Hc. exact Hc.
Qed.

Lemma trimEnd_last (text kept : JsString) (c : N) :
  trimEnd text = kept ++ [c] -> is_white_space c = false.
Proof.
  unfold trimEnd. intros Hkept.
  apply (f_equal reverse) in Hkept.
  rewrite reverse_involutive, reverse_app in Hkept. cbn in Hkept.
  exact (trimStart_head _ _ _ Hkept).
Qed.

Lemma trim_length (text : JsString) :
  (length (trim text) <= length text)%nat.
Proof.
  unfold trim.
  destruct (trimStart_split text) as (before & Htext & _).
  destruct (trimEnd_split (trimStart text)) as (after & Hstart & _).
  rewrite Htext at 2. rewrite Hstart at 2. rewrite !length_app. lia.
Qed.

Lemma slice_from_0_length (text : JsString) (end_ : Z) :
  0 <= end_ -> Z.of_nat (length (slice_from_0 text end_)) <= end_.
Proof.
  intros Hend. unfold slice_from_0.
  rewrite (proj2 (Z.ltb_ge end_ 0) Hend). rewrite length_take. lia.
Qed.

(** X18. [truncate] returns a text that fits unchanged, the empty
    text included; and for a limit that is not negative the result is
    never longer than the limit plus the three dots. *)
Theorem truncate_bound (text : JsString) (maxLength : Z) :
  (Z.of_nat (length text) <= maxLength -> truncate text maxLength = text) /\
  (0 <= maxLength ->
   Z.of_nat (length (truncate text maxLength)) <= maxLength + 3).
Proof.
  unfold truncate. split.
  - intros Hfits. destruct text as [|c text]; [reflexivity|].
    rewrite (proj2 (Z.leb_le _ _) Hfits). reflexivity.
  - intros Hlimit. destruct text as [|c text]; [cbn; lia|].
    destruct (Z.of_nat (length (c :: text)) <=? maxLength) eqn:Hfits.
    + apply Z.leb_le in Hfits. lia.
    + rewrite length_app. cbn [length ellipsis].
      pose proof (trim_length (slice_from_0 (c :: text) maxLength)).
      pose proof (slice_from_0_length (c :: text) maxLength Hlimit).
      lia.
Qed.

Lemma truncate_bound_witness :
  Z.of_nat (length (truncate Catalog.hello 7)) <= 7 + 3.
Proof.
  apply (proj2 (truncate_bound Catalog.hello 7)). lia.
Defined.

(** X19. When the text is not empty and longer than the limit,
    [truncate] keeps a
    prefix of it (the first [maxLength] code units; for a negative limit
    all but the last [-maxLength]), strips white space from both ends of
    that prefix and nothing else, and appends the three dots: the dots
    never follow white space. *)
Theorem truncate_shape (text : JsString) (maxLength : Z)
  (Hsome : text <> [])
  (Hlong : maxLength < Z.of_nat (length text)) :
  exists before kept after,
    truncate text maxLength = kept ++ ellipsis /\
    slice_from_0 text maxLength = before ++ kept ++ after /\
    slice_from_0 text maxLength `prefix_of` text /\
    forallb is_white_space before = true /\
    forallb is_white_space after = true /\
    (forall c rest, kept = c :: rest -> is_white_space c = false) /\
    (forall rest c, kept = rest ++ [c] -> is_white_space c = false).
Proof.
  set (cut := slice_from_0 text maxLength).
  destruct (trimStart_split cut) as (before & Hcut & Hbefore).
  destruct (trimEnd_split (trimStart cut)) as (after & Hstart & Hafter).
  exists before, (trim cut), after. repeat split; try assumption.
  - unfold truncate. destruct text as [|c text]; [congruence|].
    rewrite (proj2 (Z.leb_gt _ _) Hlong). reflexivity.
  - unfold trim. rewrite <- Hstart. exact Hcut.
  - unfold cut, slice_from_0. apply prefix_take.
  - intros c rest Hkept. unfold trim in Hkept.
    rewrite Hkept in Hstart. cbn in Hstart.
    exact (trimStart_head _ _ _ Hstart).
  - intros rest c Hkept. exact (trimEnd_last _ _ _ Hkept).
Qed.

Lemma truncate_shape_witness :
  exists before kept after,
    truncate Catalog.hello 7 = kept ++ ellipsis /\
    slice_from_0 Catalog.hello 7 = before ++ kept ++ after /\
    slice_from_0 Catalog.hello 7 `prefix_of` Catalog.hello /\
    forallb is_white_space before = true /\
    forallb is_white_space after = true /\
    (forall c rest, kept = c :: rest -> is_white_space c = false) /\
    (forall rest c, kept = rest ++ [c] -> is_white_space c = false).
Proof.
  apply (truncate_shape Catalog.hello 7); [discriminate | cbn; lia].
Defined.

(** ** The badge of the cart icon *)

Lemma pretty_two_digits (n : Z) :
  0 < n <= 99 -> (String.length (pretty n) <= 2)%nat.
Proof.
  intros Hn.
  assert (Hall : forallb
            (fun k => (String.length (pretty (Z.of_nat k)) <=? 2)%nat)
            (seq 0 100) = true) by (vm_compute; reflexivity).
  rewrite forallb_forall in Hall.
  specialize (Hall (Z.to_nat n)).
  rewrite Z2Nat.id in Hall by lia.
  apply Nat.leb_le, Hall, in_seq. lia.
Qed.

(** X20. The cart icon shows no badge exactly when the item count is
    not positive; a badge shown is never longer than three characters, and
    reads ["99+"] for every count above 99. *)
Theorem badge_text (itemCount : Z) :
  (badge itemCount = None <-> itemCount <= 0) /\
  (forall text, badge itemCount = Some text ->
     (String.length text <= 3)%nat /\
     (99 < itemCount -> text = "99+")).
Proof.
  unfold badge. destruct (0 <? itemCount) eqn:Hpositive.
  - apply Z.ltb_lt in Hpositive. split; [split; [discriminate | lia]|].
    intros text [= <-]. destruct (99 <? itemCount) eqn:Hmany.
    + split; [cbn; lia | reflexivity].
    + apply Z.ltb_ge in Hmany. split; [|lia].
      pose proof (pretty_two_digits itemCount). lia.
  - apply Z.ltb_ge in Hpositive. split; [split; [lia | reflexivity]|].
    discriminate.
Qed.

Lemma badge_text_witness :
  badge 42 = Some "42" /\ (String.length "42" <= 3)%nat.
Proof.
  split; [reflexivity|].
  exact (proj1 (proj2 (badge_text 42) "42" eq_refl)).
Defined.

(** * Overlapping calls *)

(** X21. Two line mutations in flight at once: an
    [updateItemQuantity] with a positive quantity and a [removeItem] issued
    before it has settled each send their request at once, and when the
    gateway accepts both, the snapshot at the end is the cart of the
    response that arrived last, whichever call it answers. The loading
    flag is down as soon as the first response has arrived, while the
    other call is still waiting. *)
Theorem last_response_wins (s : Store) (t : list Event)
  (captured : option string) (id lineX lineY : string) (quantity : Z)
  (updated removed : Response)
  (Hid : truthy captured = Some id) (Hq : 0 < quantity)
  (Hupdated : response_userErrors updated = [])
  (Hremoved : response_userErrors removed = []) :
  let update := start (updateItemQuantity captured lineX quantity) s t in
  let remove := start (removeItem captured lineY) update.1.1 update.1.2 in
  let update_first :=
    deliver update.2 (Resolved updated) remove.1.1 remove.1.2 in
  let remove_last :=
    deliver remove.2 (Resolved removed) update_first.1.1 update_first.1.2 in
  let remove_first :=
    deliver remove.2 (Resolved removed) remove.1.1 remove.1.2 in
  let update_last :=
    deliver update.2 (Resolved updated) remove_first.1.1 remove_first.1.2 in
  remove.1.2 =
    t ++ [Sent (UPDATE_CART_LINES_MUTATION id
                  [mkCartLineUpdateInput lineX quantity])]
      ++ [Sent (REMOVE_CART_LINES_MUTATION id [lineY])] /\
  loading remove.1.1 = true /\
  loading update_first.1.1 = false /\
  loading remove_first.1.1 = false /\
  cart remove_last.1.1 = response_cart removed /\
  remove_last.2 = Done (Fulfilled (response_cart removed)) /\
  cart update_last.1.1 = response_cart updated /\
  update_last.2 = Done (Fulfilled (response_cart updated)).
Proof.
  cbn zeta.
  destruct (line_mutation_cases captured lineX quantity id Hid Hq)
    as [_ ->].
  destruct (line_mutation_cases captured lineY quantity id Hid Hq)
    as [-> _].
  cbn. rewrite Hupdated, Hremoved. cbn. rewrite <- app_assoc.
  repeat split.
Qed.

Lemma last_response_wins_witness :
  cart Catalog.removal_answered.1.1 = Some Sample.empty_cart.
Proof.
  exact (proj1 (proj2 (proj2 (proj2 (proj2
    (last_response_wins Sample.shopping []
       (Some "gid://shopify/Cart/c1") "gid://shopify/Cart/c1"
       "gid://shopify/CartLine/l1" "gid://shopify/CartLine/l1" 3
       (mkResponse (Some Sample.cart_A) [])
       (mkResponse (Some Sample.empty_cart) [])
       eq_refl eq_refl eq_refl eq_refl)))))).
Defined.
